(** * Products API (src/app.js): a shallow embedding and its properties

    The program is an Express application over one MongoDB collection.
    The embedding follows the source:

    - Module [JS]: the JavaScript values the handlers touch, with the
      built-ins the source calls on them: [Number], [Number.isNaN],
      truthiness, [===] against a string, [String.prototype.split] and
      [trim], property assignment on an object literal;
    - Module [Mongo]: the part of the MongoDB driver the source calls:
      [ObjectId.isValid], [new ObjectId], and the five collection
      operations, run against an in-memory collection;
    - the application: the middleware chain and the six route handlers,
      written as programs that may await a collection operation inside a
      [try]/[catch], and [serve], which runs one request;
    - the properties.

    JavaScript numbers are IEEE 754 binary64 values ([spec_float] at
    precision 53 and maximal exponent 1024).  Strings are sequences of code
    units below 256 (one [ascii] per code unit).  [req.query] and [req.body]
    are finite maps from property names to values; a property that is
    [undefined] is one the map does not have.  The collection is a finite
    map from [_id] to document.

    Left out: what the source writes to the console, the start of the
    process (environment variables, [listen], the exits on a missing or
    failing connection), and the methods Express answers by itself (HEAD,
    OPTIONS). *)

From Stdlib Require Import ZArith NArith Ascii String SpecFloat Sorted.
From stdpp Require Import base option list gmap strings fin_maps.

Set Warnings "-register-all".

Local Open Scope string_scope.
Local Open Scope list_scope.
Local Open Scope Z_scope.

(* ===================================================================== *)
(** * JavaScript values and built-ins *)
(* ===================================================================== *)

Module JS.

(** ** Numbers *)

Definition number : Type := spec_float.

Definition prec : Z := 53.
Definition emax : Z := 1024.

Definition NaN : number := S754_nan.
Definition Infinity : number := S754_infinity false.
Definition pos_zero : number := S754_zero false.

(** [Number.isNaN]. *)
Definition isNaN (x : number) : bool :=
  match x with S754_nan => true | _ => false end.

(** [Number.isFinite]: the source never calls it; the specification's
    "finite number" is stated with it. *)
Definition isFinite (x : number) : bool :=
  match x with S754_zero _ | S754_finite _ _ _ => true | _ => false end.

(** The Number value of the integer [z]. *)
Definition of_Z (z : Z) : number := binary_normalize prec emax z 0 false.

(** The Number value of [m * 10^e10] with sign [neg], rounded to nearest,
    ties to even. *)
Definition of_decimal (neg : bool) (m : N) (e10 : Z) : number :=
  match m with
  | N0 => S754_zero neg
  | Npos p =>
      if 0 <=? e10
      then binary_normalize prec emax (cond_Zopp neg (Zpos p * 10 ^ e10)) 0 false
      else match 10 ^ (- e10) with
           | Zpos d => SFdiv prec emax (S754_finite neg p 0) (S754_finite false d 0)
           | _ => NaN
           end
  end.

(** [x >= y] on Numbers (false as soon as one side is NaN). *)
Definition geb (x y : number) : bool := SFleb y x.

(** ** Strings *)

Definition code (c : ascii) : N := N_of_ascii c.

(** WhiteSpace and LineTerminator code units: TAB, LF, VT, FF, CR, SP, NBSP. *)
Definition is_space (c : ascii) : bool :=
  let n := code c in
  ((9 <=? n) && (n <=? 13) || (n =? 32) || (n =? 160))%N.

Definition is_digit (c : ascii) : bool :=
  let n := code c in ((48 <=? n) && (n <=? 57))%N.

(** Value of a digit in base 16 (also used for bases 2, 8 and 10). *)
Definition hex_val (c : ascii) : option N :=
  let n := code c in
  if ((48 <=? n) && (n <=? 57))%N then Some (n - 48)%N
  else if ((97 <=? n) && (n <=? 102))%N then Some (n - 87)%N
  else if ((65 <=? n) && (n <=? 70))%N then Some (n - 55)%N
  else None.

Definition digit_in (base : N) (c : ascii) : bool :=
  match hex_val c with Some d => (d <? base)%N | None => false end.

Definition digits_val (base : N) (l : list ascii) : N :=
  foldl (fun acc c => (acc * base + default 0%N (hex_val c))%N) 0%N l.

Fixpoint span (p : ascii -> bool) (l : list ascii) : list ascii * list ascii :=
  match l with
  | c :: r => if p c then let '(a, b) := span p r in (c :: a, b) else ([], l)
  | [] => ([], [])
  end.

Fixpoint drop_spaces (l : list ascii) : list ascii :=
  match l with
  | c :: r => if is_space c then drop_spaces r else l
  | [] => []
  end.

Definition trim_list (l : list ascii) : list ascii :=
  rev (drop_spaces (rev (drop_spaces l))).

(** [String.prototype.trim]. *)
Definition trim (s : string) : string :=
  string_of_list_ascii (trim_list (list_ascii_of_string s)).

Fixpoint split_list (sep : ascii) (cur : list ascii) (l : list ascii)
  : list (list ascii) :=
  match l with
  | [] => [rev cur]
  | c :: r => if Ascii.eqb c sep then rev cur :: split_list sep [] r
              else split_list sep (c :: cur) r
  end.

(** [String.prototype.split] with a one-character separator. *)
Definition split (sep : ascii) (s : string) : list string :=
  string_of_list_ascii <$> split_list sep [] (list_ascii_of_string s).

(** ** StringToNumber (the StringNumericLiteral grammar) *)

(** ExponentPart, or nothing: [e] or [E], an optional sign, digits. *)
Definition exponent_part (l : list ascii) : option Z :=
  match l with
  | [] => Some 0
  | c :: r =>
      if Ascii.eqb c "e" || Ascii.eqb c "E" then
        let '(neg, ds) :=
          match r with
          | s :: r' => if Ascii.eqb s "-" then (true, r')
                       else if Ascii.eqb s "+" then (false, r') else (false, r)
          | [] => (false, r)
          end in
        match ds with
        | [] => None
        | _ => if forallb is_digit ds
               then Some (cond_Zopp neg (Z.of_N (digits_val 10 ds)))
               else None
        end
      else None
  end.

(** StrUnsignedDecimalLiteral. *)
Definition unsigned_decimal (neg : bool) (l : list ascii) : number :=
  if bool_decide (l = list_ascii_of_string "Infinity") then S754_infinity neg
  else
    let '(ip, r1) := span is_digit l in
    let '(fp, r2) :=
      match r1 with
      | c :: r => if Ascii.eqb c "." then span is_digit r else ([], r1)
      | [] => ([], r1)
      end in
    match ip ++ fp with
    | [] => NaN
    | ds => match exponent_part r2 with
            | Some e => of_decimal neg (digits_val 10 ds) (e - Z.of_nat (length fp))
            | None => NaN
            end
    end.

(** NonDecimalIntegerLiteral: [0x], [0o], [0b] and their upper-case forms. *)
Definition non_decimal (l : list ascii) : option number :=
  match l with
  | z :: p :: ds =>
      if Ascii.eqb z "0" then
        let base :=
          if Ascii.eqb p "x" || Ascii.eqb p "X" then Some 16%N
          else if Ascii.eqb p "o" || Ascii.eqb p "O" then Some 8%N
          else if Ascii.eqb p "b" || Ascii.eqb p "B" then Some 2%N
          else None in
        match base with
        | Some b =>
            Some (match ds with
                  | [] => NaN
                  | _ => if forallb (digit_in b) ds
                         then of_decimal false (digits_val b ds) 0
                         else NaN
                  end)
        | None => None
        end
      else None
  | _ => None
  end.

Definition StringToNumber (s : string) : number :=
  match trim_list (list_ascii_of_string s) with
  | [] => pos_zero
  | (c :: r) as l =>
      match non_decimal l with
      | Some x => x
      | None =>
          if Ascii.eqb c "-" then unsigned_decimal true r
          else if Ascii.eqb c "+" then unsigned_decimal false r
          else unsigned_decimal false l
      end
  end.

(** ** Values

    A request body or query string holds no [undefined]: a variable that may
    be [undefined] (a destructured property) is an [option jsval], [None]
    being [undefined].  [VOid] is an instance of the driver's [ObjectId]
    class, its twelve bytes read as one big-endian number. *)

Inductive jsval : Type :=
  | VNull
  | VBool (b : bool)
  | VNum (x : number)
  | VStr (s : string)
  | VArr (l : list jsval)
  | VObj (o : list (string * jsval))
  | VOid (i : N).

(** ToBoolean. *)
Definition truthy (v : option jsval) : bool :=
  match v with
  | None | Some VNull => false
  | Some (VBool b) => b
  | Some (VNum x) => match x with S754_zero _ | S754_nan => false | _ => true end
  | Some (VStr s) => negb (String.eqb s EmptyString)
  | Some (VArr _) | Some (VObj _) | Some (VOid _) => true
  end.

Definition hex_char (d : N) : ascii :=
  ascii_of_N (if (d <? 10)%N then d + 48 else d + 87)%N.

Fixpoint hex_digits (n : nat) (x : N) (acc : list ascii) : list ascii :=
  match n with
  | O => acc
  | S n' => hex_digits n' (x / 16)%N (hex_char (x mod 16)%N :: acc)
  end.

(** [ObjectId.prototype.toHexString], which is also its [toString]. *)
Definition toHexString (i : N) : string :=
  string_of_list_ascii (hex_digits 24 i []).

(** Whether an object can be turned into a primitive.  A parsed object that
    has a key [toString] of its own hides the inherited method behind a
    value that is not callable, and the inherited [valueOf] returns the
    object itself: the conversion throws a TypeError.  An array prints its
    elements, so it throws when one of them does. *)
Fixpoint printable (v : jsval) : bool :=
  match v with
  | VObj o => negb (existsb (fun kv => String.eqb kv.1 "toString") o)
  | VArr l => forallb printable l
  | _ => true
  end.

(** The Number a printable value converts to.  An object goes through its
    [toString]: a plain object prints as [[object Object]], an ObjectId as
    its hex string, an array as its elements joined by commas, [null]
    printing as the empty string.  Two or more elements leave a comma in
    the string, which no numeric literal has; a single Number element
    prints as a literal that reads back as the same Number, [-0] printing
    as [0]. *)
Fixpoint to_number (v : jsval) : number :=
  match v with
  | VNull => pos_zero
  | VBool b => if b then of_Z 1 else pos_zero
  | VNum x => x
  | VStr s => StringToNumber s
  | VArr [] => pos_zero
  | VArr [x] =>
      match x with
      | VBool _ => NaN
      | VNum (S754_zero _) => pos_zero
      | _ => to_number x
      end
  | VArr _ => NaN
  | VObj _ => NaN
  | VOid i => StringToNumber (toHexString i)
  end.

(** ToNumber; [None] when it throws. *)
Definition ToNumber (v : jsval) : option number :=
  if printable v then Some (to_number v) else None.

(** [Number(x)]; [None] when it throws. *)
Definition Number (v : option jsval) : option number :=
  match v with
  | None => Some NaN
  | Some x => ToNumber x
  end.

(** [x === s] against a string literal. *)
Definition strict_eq_str (v : option jsval) (s : string) : bool :=
  match v with
  | Some (VStr t) => String.eqb t s
  | _ => false
  end.

(** [obj[k] = v] on an object created by [{}].  The key [__proto__] reaches
    the accessor inherited from [Object.prototype], which ignores a value
    that is neither an object nor [null]: no own property appears. *)
Definition set_number_prop (k : string) (v : Z) (obj : gmap string Z)
  : gmap string Z :=
  if String.eqb k "__proto__" then obj else <[k := v]> obj.

(** ** decodeURIComponent

    Every [%XX] is read as one byte; a byte of 128 or more starts a UTF-8
    sequence whose other bytes must be escapes too.  A [%] that two
    hexadecimal digits do not follow, or bytes that are no well-formed
    UTF-8, throw a URIError. *)
Fixpoint unescape (l : list ascii) : option (list (bool * N)) :=
  match l with
  | [] => Some []
  | c :: r =>
      if Ascii.eqb c "%" then
        match r with
        | h1 :: h2 :: r' =>
            match hex_val h1, hex_val h2 with
            | Some a, Some b => cons (true, (a * 16 + b)%N) <$> unescape r'
            | _, _ => None
            end
        | _ => None
        end
      else cons (false, code c) <$> unescape r
  end.

(** The low six bits of a continuation byte [10xxxxxx], which must be
    escaped. *)
Definition continuation (x : bool * N) : option N :=
  if x.1 && (128 <=? x.2)%N && (x.2 <=? 191)%N then Some (x.2 - 128)%N
  else None.

(** The code points: no overlong form, no surrogate, nothing above
    U+10FFFF. *)
Fixpoint utf8 (l : list (bool * N)) : option (list N) :=
  match l with
  | [] => Some []
  | (false, c) :: r => cons c <$> utf8 r
  | (true, b) :: r =>
      if (b <? 128)%N then cons b <$> utf8 r
      else if (194 <=? b)%N && (b <=? 223)%N then
        match r with
        | x1 :: r1 =>
            match continuation x1 with
            | Some c1 => cons ((b - 192) * 64 + c1)%N <$> utf8 r1
            | None => None
            end
        | _ => None
        end
      else if (224 <=? b)%N && (b <=? 239)%N then
        match r with
        | x1 :: x2 :: r2 =>
            match continuation x1, continuation x2 with
            | Some c1, Some c2 =>
                let v := ((b - 224) * 4096 + c1 * 64 + c2)%N in
                if (2048 <=? v)%N && negb ((55296 <=? v)%N && (v <=? 57343)%N)
                then cons v <$> utf8 r2 else None
            | _, _ => None
            end
        | _ => None
        end
      else if (240 <=? b)%N && (b <=? 244)%N then
        match r with
        | x1 :: x2 :: x3 :: r3 =>
            match continuation x1, continuation x2, continuation x3 with
            | Some c1, Some c2, Some c3 =>
                let v := ((b - 240) * 262144 + c1 * 4096 + c2 * 64 + c3)%N in
                if (65536 <=? v)%N && (v <=? 1114111)%N
                then cons v <$> utf8 r3 else None
            | _, _, _ => None
            end
        | _ => None
        end
      else None
  end.

(** The decoded string; [Beyond] when it holds a code point above 255,
    which a [string] of this development cannot hold. *)
Inductive Decoded : Type :=
  | Units (s : string)
  | Beyond
  | URIError.

Definition decodeURIComponent (s : string) : Decoded :=
  match unescape (list_ascii_of_string s) ≫= utf8 with
  | Some l =>
      if forallb (fun c => (c <? 256)%N) l
      then Units (string_of_list_ascii (ascii_of_N <$> l))
      else Beyond
  | None => URIError
  end.

End JS.

(* ===================================================================== *)
(** * The MongoDB driver, as far as the source calls it *)
(* ===================================================================== *)

Module Mongo.
Import JS.

(** ** ObjectId *)

Definition ObjectId : Type := N.

(** [ObjectId.isValid] on a string: twelve characters that are twelve bytes
    in UTF-8, or twenty-four hexadecimal digits. *)
Definition isValid (id : string) : bool :=
  let l := list_ascii_of_string id in
  (length l =? 12)%nat && forallb (fun c => (code c <? 128)%N) l
  || (length l =? 24)%nat && forallb (digit_in 16) l.

(** [new ObjectId(id)] on a string; [None] when the constructor throws. *)
Definition newObjectId (id : string) : option ObjectId :=
  let l := list_ascii_of_string id in
  if (length l =? 12)%nat && forallb (fun c => (code c <? 128)%N) l
  then Some (foldl (fun acc c => (acc * 256 + code c)%N) 0%N l)
  else if (length l =? 24)%nat && forallb (digit_in 16) l
  then Some (digits_val 16 l)
  else None.

(** ** Documents and the collection

    A document is an object whose [_id] is an ObjectId; the collection's
    unique index on [_id] makes it a finite map from ObjectId to document. *)

Abbreviation Doc := (gmap string jsval).
Abbreviation Coll := (gmap ObjectId (gmap string jsval)).

(** The filter object [{category?, price?: {$gte}}]. *)
Inductive PriceCond : Type := Gte (mp : number).

Record Filter : Type := {
  category : option jsval;
  price : option PriceCond
}.

(** The options object [{sort?: {price: 1 | -1}, projection?}]. *)
Inductive SortSpec : Type := ByPrice (dir : Z).

Record Options : Type := {
  sort : option SortSpec;
  projection : option (gmap string Z)
}.

(** What the operations resolve with.  The source reads [result.value]
    after [findOneAndUpdate]: the driver hands back its result wrapper,
    whose [value] is the document or [null]. *)
Record InsertOneResult : Type := { insertedId : ObjectId }.
Record ModifyResult : Type := { value : option Doc }.
Record DeleteResult : Type := { deletedCount : N }.

(** Equality of two Numbers in a query: [0] and [-0] are equal, NaN equals
    NaN. *)
Definition number_eqb (x y : number) : bool :=
  SFeqb x y || isNaN x && isNaN y.

Fixpoint jsval_eqb (a b : jsval) : bool :=
  match a, b with
  | VNull, VNull => true
  | VBool x, VBool y => Bool.eqb x y
  | VNum x, VNum y => number_eqb x y
  | VStr x, VStr y => String.eqb x y
  | VArr l, VArr l' =>
      (fix go (l l' : list jsval) : bool :=
         match l, l' with
         | [], [] => true
         | x :: r, y :: r' => jsval_eqb x y && go r r'
         | _, _ => false
         end) l l'
  | VObj o, VObj o' =>
      (fix go (o o' : list (string * jsval)) : bool :=
         match o, o' with
         | [], [] => true
         | (k, x) :: r, (k', y) :: r' =>
             String.eqb k k' && jsval_eqb x y && go r r'
         | _, _ => false
         end) o o'
  | VOid i, VOid j => (i =? j)%N
  | _, _ => false
  end.

(** An object with a key that starts with [$]: in a filter the server reads
    it as an operator expression ([{$ne: ...}]), or refuses it. *)
Definition is_operator_document (v : jsval) : bool :=
  match v with
  | VObj o => existsb (fun kv => String.prefix "$" kv.1) o
  | _ => false
  end.

(** [{category: q}]: the field equals [q], or is an array with an element
    equal to [q]; [null] also matches a missing field.  Operator documents
    are not interpreted: the properties of [find] below are stated for a
    [q] that is none. *)
Definition matches_category (q : jsval) (d : Doc) : bool :=
  match d !! "category" with
  | Some v =>
      jsval_eqb v q
      || match v with VArr l => existsb (fun e => jsval_eqb e q) l | _ => false end
  | None => match q with VNull => true | _ => false end
  end.

Definition number_gte (mp : number) (v : jsval) : bool :=
  match v with
  | VNum x => if isNaN mp then isNaN x else geb x mp
  | _ => false
  end.

(** [{price: {$gte: mp}}]: the field is a Number at least [mp], or an array
    with such an element; values of other types never match. *)
Definition matches_price (c : PriceCond) (d : Doc) : bool :=
  let 'Gte mp := c in
  match d !! "price" with
  | Some (VArr l) => existsb (number_gte mp) l
  | Some v => number_gte mp v
  | None => false
  end.

Definition matches (f : Filter) (d : Doc) : bool :=
  match category f with Some q => matches_category q d | None => true end
  && match price f with Some c => matches_price c d | None => true end.

(** Sort order of a [price] field: missing and [null] first, then Numbers
    (NaN lowest), then strings, then the other types, left in place among
    themselves. *)
Definition type_rank (v : option jsval) : N :=
  match v with
  | None | Some VNull => 1
  | Some (VNum _) => 2
  | Some (VStr _) => 3
  | Some (VObj _) => 4
  | Some (VArr _) => 5
  | Some (VOid _) => 6
  | Some (VBool _) => 7
  end%N.

Definition price_ltb (a b : option jsval) : bool :=
  if (type_rank a <? type_rank b)%N then true
  else if (type_rank b <? type_rank a)%N then false
  else match a, b with
       | Some (VNum x), Some (VNum y) =>
           if isNaN y then false else if isNaN x then true else SFltb x y
       | Some (VStr x), Some (VStr y) => String.ltb x y
       | _, _ => false
       end.

Definition comes_before (s : SortSpec) (a b : Doc) : bool :=
  let 'ByPrice dir := s in
  if 0 <=? dir then price_ltb (a !! "price") (b !! "price")
  else price_ltb (b !! "price") (a !! "price").

Fixpoint insert_sorted (s : SortSpec) (d : Doc) (l : list Doc) : list Doc :=
  match l with
  | [] => [d]
  | x :: r => if comes_before s d x then d :: l else x :: insert_sorted s d r
  end.

Definition sort_docs (s : option SortSpec) (l : list Doc) : list Doc :=
  match s with
  | Some spec => foldr (insert_sorted spec) [] l
  | None => l
  end.


(** An inclusion projection keeps the named fields and [_id]; the empty
    projection keeps the whole document.  The keys are read as top-level
    field names, which is what the server does with the [plain_field]
    ones; what it does with a dotted path or a name it refuses is not
    modelled. *)
Definition project (p : option (gmap string Z)) (d : Doc) : Doc :=
  match p with
  | None => d
  | Some p =>
      if bool_decide (p = ∅) then d
      else filter (fun kv => kv.1 = "_id" \/ is_Some (p !! kv.1)) d
  end.

(** [find(filter, options).toArray()].  Without a sort the documents come
    in the order of the map's listing (the server promises none). *)
Definition find (f : Filter) (o : Options) (c : Coll) : list Doc :=
  project (projection o)
    <$> sort_docs (sort o) (List.filter (matches f) (snd <$> map_to_list c)).

(** [findOne({_id})]. *)
Definition findOne (id : ObjectId) (c : Coll) : option Doc := c !! id.

(** [{$set: update}] on one document. *)
Definition apply_set (update : Doc) (d : Doc) : Doc := update ∪ d.

(** ** Collection operations as requests to the driver

    A handler awaits one operation; the promise resolves with a reply or
    rejects.  [Env] is what the outside decides while one request is
    handled: whether the driver reaches the server, and the ObjectId the
    driver generates for an inserted document. *)

Inductive storeE : Type -> Type :=
  | Find (f : Filter) (o : Options) : storeE (list Doc)
  | FindOne (id : ObjectId) : storeE (option Doc)
  | InsertOne (d : Doc) : storeE InsertOneResult
  | FindOneAndUpdate (id : ObjectId) (update : Doc) : storeE ModifyResult
  | DeleteOne (id : ObjectId) : storeE DeleteResult.

Inductive Settled (X : Type) : Type :=
  | Resolved (x : X)
  | Rejected.
Arguments Resolved {X} x.
Arguments Rejected {X}.

Record Env : Type := {
  storeUp : bool;
  generatedId : ObjectId
}.

(** One operation against the collection.  An insert whose generated [_id]
    is taken is rejected by the unique index; [findOneAndUpdate] replies
    with the document after the update ([returnDocument: "after"]) in the
    [value] field of its result, [null] when no document matched. *)
Definition exec {X} (e : storeE X) (env : Env) (c : Coll) : Settled X * Coll :=
  if negb (storeUp env) then (Rejected, c)
  else
    match e in storeE X return Settled X * Coll with
    | Find f o => (Resolved (find f o c), c)
    | FindOne id => (Resolved (findOne id c), c)
    | InsertOne d =>
        let id := generatedId env in
        match c !! id with
        | Some _ => (Rejected, c)
        | None => (Resolved {| insertedId := id |},
                   <[id := <["_id" := VOid id]> d]> c)
        end
    | FindOneAndUpdate id update =>
        match c !! id with
        | Some d =>
            let d' := apply_set update d in
            (Resolved {| value := Some d' |}, <[id := d']> c)
        | None => (Resolved {| value := None |}, c)
        end
    | DeleteOne id =>
        match c !! id with
        | Some _ => (Resolved {| deletedCount := 1 |}, delete id c)
        | None => (Resolved {| deletedCount := 0 |}, c)
        end
    end.

End Mongo.

(* ===================================================================== *)
(** * Handlers as programs *)
(* ===================================================================== *)

(** An [async] handler body: it returns, throws, or awaits a collection
    operation and goes on with what the promise settled to. *)
Inductive Prog (A : Type) : Type :=
  | Ret (a : A)
  | Throw
  | Call {X : Type} (e : Mongo.storeE X) (k : Mongo.Settled X -> Prog A).
Arguments Ret {A} a.
Arguments Throw {A}.
Arguments Call {A X} e k.

Fixpoint bind {A B} (p : Prog A) (f : A -> Prog B) : Prog B :=
  match p with
  | Ret a => f a
  | Throw => Throw
  | Call e k => Call e (fun r => bind (k r) f)
  end.

(** [await op]: the reply, or the rejection rethrown. *)
Definition await {X} (e : Mongo.storeE X) : Prog X :=
  Call e (fun r => match r with Mongo.Resolved x => Ret x | Mongo.Rejected => Throw end).

(** [try { p } catch (e) { return h }]. *)
Fixpoint try_catch {A} (p : Prog A) (h : A) : Prog A :=
  match p with
  | Ret a => Ret a
  | Throw => Ret h
  | Call e k => Call e (fun r => try_catch (k r) h)
  end.

Notation "'let!' x ':=' p 'in' q" := (bind p (fun x => q))
  (at level 10, x name, p at level 100, q at level 200, only parsing).

(** A recorded collection operation. *)
Definition Issued : Type := { X : Type & Mongo.storeE X }.

(** Running a program: its outcome ([None] for an uncaught exception), the
    collection afterwards, and the operations issued, in order. *)
Fixpoint run {A} (p : Prog A) (env : Mongo.Env) (c : Mongo.Coll)
  : option A * Mongo.Coll * list Issued :=
  match p with
  | Ret a => (Some a, c, [])
  | Throw => (None, c, [])
  | Call e k =>
      let '(r, c') := Mongo.exec e env c in
      let '(a, c'', t) := run (k r) env c' in
      (a, c'', existT _ e :: t)
  end.

(* ===================================================================== *)
(** * The application (src/app.js) *)
(* ===================================================================== *)

Import JS.

(** ** Requests and responses

    A request as the routes see it: the method, the path cut at its
    slashes into segments (a trailing slash dropped) with the segment a
    route takes as [:id] percent-decoded, as Express hands it over in
    [req.params], [req.query], and what [express.json()] made of the body:
    the parsed object ([{}] when the request carries no JSON body), or the
    status of the error it hands to [next] (400 for malformed JSON).  What
    Express does before a route sees the request (decoding [:id], serving
    HEAD through the GET routes) is [handle], below. *)

Inductive Method : Type := GET | POST | PUT | DELETE | PATCH.

Inductive ParsedBody : Type :=
  | JsonBody (b : gmap string jsval)
  | BodyError (status : nat).

Record Request : Type := {
  method : Method;
  path : list string;
  query : gmap string jsval;
  body : ParsedBody
}.

(** The values the source hands to [res.json].  [JSON.stringify] then
    writes an ObjectId as its hex string and a Number that is infinite as
    [null]. *)
Inductive Body : Type :=
  | BError (error : string)
  | BLinks (links : list string)
  | BList (count : nat) (products : list Mongo.Doc)
  | BProduct (product : Mongo.Doc)
  | BCreated (message : string) (id : Mongo.ObjectId)
  | BUpdated (message : string) (product : Mongo.Doc)
  | BMessage (message : string).

(** [res.status(s).json(b)], or the page of Express's default error handler. *)
Inductive Response : Type :=
  | Json (status : nat) (body : Body)
  | ErrorPage (status : nat).

Definition status_of (r : Response) : nat :=
  match r with Json s _ | ErrorPage s => s end.

(** The handle [productsCollection] and the collection behind it. *)
Record Collection : Type := {
  dbName : string;
  collectionName : string
}.

Record Server : Type := {
  productsCollection : option Collection;
  documents : Mongo.Coll
}.

(** The [then] branch of [MongoClient.connect]. *)
Definition connected (DB_NAME COLLECTION_NAME : string) (srv : Server) : Server :=
  {| productsCollection :=
       Some {| dbName := DB_NAME; collectionName := COLLECTION_NAME |};
     documents := documents srv |}.

(** ** Early returns *)

Inductive Step (A : Type) : Type :=
  | Continue (a : A)
  | Return (r : Response)
  | Raise.
Arguments Continue {A} a.
Arguments Return {A} r.
Arguments Raise {A}.

Definition step {A} (s : Step A) (k : A -> Prog Response) : Prog Response :=
  match s with
  | Continue a => k a
  | Return r => Ret r
  | Raise => Throw
  end.

Notation "'let?' x ':=' s 'in' k" := (step s (fun x => k))
  (at level 10, x name, s at level 100, k at level 200, only parsing).

(** A built-in that may throw, inside a handler. *)
Definition throwing {A} (o : option A) : Prog A :=
  match o with
  | Some a => Ret a
  | None => Throw
  end.

Definition is_undefined (v : option jsval) : bool :=
  match v with None => true | Some _ => false end.

(** An object literal; a property whose value is [undefined] makes no entry. *)
Definition object (l : list (string * option jsval)) : gmap string jsval :=
  foldr (fun kv o => match kv.2 with Some v => <[kv.1 := v]> o | None => o end) ∅ l.

Definition server_error : Response := Json 500 (BError "Server error").
Definition not_found : Response := Json 404 (BError "Not found").
Definition invalid_id : Response := Json 400 (BError "Invalid id").
Definition missing_fields : Response :=
  Json 400 (BError "Missing required fields: name, price, category").
Definition price_not_number : Response :=
  Json 400 (BError "price must be a number").
Definition no_update_fields : Response :=
  Json 400 (BError "Provide at least one field: name, price, category").
Definition minPrice_not_number : Response :=
  Json 400 (BError "minPrice must be a number").

(** ** GET /api/products *)

(** Lines 58-64. *)
Definition with_category (category : option jsval) : Mongo.Filter :=
  {| Mongo.category := if truthy category then category else None;
     Mongo.price := None |}.

Definition with_minPrice (minPrice : option jsval) (filter : Mongo.Filter)
  : Step Mongo.Filter :=
  if negb (is_undefined minPrice) then
    match Number minPrice with
    | Some mp =>
        if isNaN mp then Return minPrice_not_number
        else Continue {| Mongo.category := Mongo.category filter;
                         Mongo.price := Some (Mongo.Gte mp) |}
    | None => Raise
    end
  else Continue filter.

Definition quoted (s : string) : string :=
  String (ascii_of_N 34) (String.append s (String (ascii_of_N 34) EmptyString)).

Definition sort_message : string :=
  String.append "sort must be "
    (String.append (quoted "price") (String.append " or " (quoted "-price"))).

(** Lines 66-70. *)
Definition with_sort (sort : option jsval) (options : Mongo.Options)
  : Step Mongo.Options :=
  if truthy sort then
    if strict_eq_str sort "price"
    then Continue {| Mongo.sort := Some (Mongo.ByPrice 1);
                     Mongo.projection := Mongo.projection options |}
    else if strict_eq_str sort "-price"
    then Continue {| Mongo.sort := Some (Mongo.ByPrice (-1));
                     Mongo.projection := Mongo.projection options |}
    else Return (Json 400 (BError sort_message))
  else Continue options.

(** Lines 72-76.  [fields.split] exists on strings only: any other truthy
    value throws a TypeError. *)
Definition projection_of (fields : string) : gmap string Z :=
  foldl (fun projection f => set_number_prop f 1 projection) ∅
    (List.filter (fun s => truthy (Some (VStr s))) (trim <$> split "," fields)).

Definition with_fields (fields : option jsval) (options : Mongo.Options)
  : Prog Mongo.Options :=
  if truthy fields then
    match fields with
    | Some (VStr s) =>
        Ret {| Mongo.sort := Mongo.sort options;
               Mongo.projection := Some (projection_of s) |}
    | _ => Throw
    end
  else Ret options.

(** Lines 51-85. *)
Definition list_products (q : gmap string jsval) : Prog Response :=
  try_catch
    (let category := q !! "category" in
     let minPrice := q !! "minPrice" in
     let sort := q !! "sort" in
     let fields := q !! "fields" in
     let? filter := with_minPrice minPrice (with_category category) in
     let? options := with_sort sort {| Mongo.sort := None; Mongo.projection := None |} in
     let! options := with_fields fields options in
     let! products := await (Mongo.Find filter options) in
     Ret (Json 200 (BList (length products) products)))
    server_error.

(** What the handler does before it reaches the collection: the response
    it returns early, or the filter and options it passes to [find]. *)
Definition list_plan (q : gmap string jsval) : Response + Mongo.Filter * Mongo.Options :=
  match with_minPrice (q !! "minPrice") (with_category (q !! "category")) with
  | Return r => inl r
  | Raise => inl server_error
  | Continue filter =>
      match with_sort (q !! "sort") {| Mongo.sort := None; Mongo.projection := None |} with
      | Return r => inl r
      | Raise => inl server_error
      | Continue options =>
          if truthy (q !! "fields") then
            match q !! "fields" with
            | Some (VStr s) =>
                inr (filter, {| Mongo.sort := Mongo.sort options;
                                Mongo.projection := Some (projection_of s) |})
            | _ => inl server_error
            end
          else inr (filter, options)
      end
  end.

(** The [category] parameter is absent or no operator document. *)
Definition plain_category (q : gmap string jsval) : bool :=
  match q !! "category" with
  | Some c => negb (Mongo.is_operator_document c)
  | None => true
  end.

(** ** GET /api/products/:id (lines 87-100) *)

(** [new ObjectId(id)] inside a handler. *)
Definition new_ObjectId (id : string) : Prog Mongo.ObjectId :=
  throwing (Mongo.newObjectId id).

Definition get_product (id : string) : Prog Response :=
  try_catch
    (if negb (Mongo.isValid id) then Ret invalid_id
     else
       let! oid := new_ObjectId id in
       let! product := await (Mongo.FindOne oid) in
       match product with
       | None => Ret not_found
       | Some d => Ret (Json 200 (BProduct d))
       end)
    server_error.

(** ** POST /api/products (lines 102-123) *)

Definition create_product (b : gmap string jsval) : Prog Response :=
  try_catch
    (let name := b !! "name" in
     let price := b !! "price" in
     let category := b !! "category" in
     if negb (truthy name) || is_undefined price || negb (truthy category)
     then Ret missing_fields
     else
       let! p := throwing (Number price) in
       if isNaN p then Ret price_not_number
       else
         let! result := await (Mongo.InsertOne
                            (object [("name", name);
                                     ("price", Some (VNum p));
                                     ("category", category)])) in
         Ret (Json 201 (BCreated "Product created" (Mongo.insertedId result))))
    server_error.

(** ** PUT /api/products/:id (lines 125-159) *)

(** Lines 137-144: the update set, the early return, or the exception. *)
Definition update_of (name price category : option jsval) : Step Mongo.Doc :=
  let update : gmap string jsval := ∅ in
  let update := match name with Some v => <["name" := v]> update | None => update end in
  let update := match category with Some v => <["category" := v]> update | None => update end in
  if negb (is_undefined price) then
    match Number price with
    | Some p =>
        if isNaN p then Return price_not_number
        else Continue (<["price" := VNum p]> update)
    | None => Raise
    end
  else Continue update.

Definition update_product (id : string) (b : gmap string jsval) : Prog Response :=
  try_catch
    (if negb (Mongo.isValid id) then Ret invalid_id
     else
       let name := b !! "name" in
       let price := b !! "price" in
       let category := b !! "category" in
       if is_undefined name && is_undefined price && is_undefined category
       then Ret no_update_fields
       else
         let? update := update_of name price category in
         let! oid := new_ObjectId id in
         let! result := await (Mongo.FindOneAndUpdate oid update) in
         match Mongo.value result with
         | None => Ret not_found
         | Some d => Ret (Json 200 (BUpdated "Product updated" d))
         end)
    server_error.

(** ** DELETE /api/products/:id (lines 161-174) *)

Definition delete_product (id : string) : Prog Response :=
  try_catch
    (if negb (Mongo.isValid id) then Ret invalid_id
     else
       let! oid := new_ObjectId id in
       let! result := await (Mongo.DeleteOne oid) in
       if (Mongo.deletedCount result =? 0)%N then Ret not_found
       else Ret (Json 200 (BMessage "Product deleted")))
    server_error.

(** ** The middleware chain (lines 18-178)

    In registration order: the logger, [express.json()], the readiness
    check, the routes, the fallback.  A body that [express.json()] rejects
    goes to [next(err)]: Express skips every later middleware and route and
    answers with the error's status.  The logger only writes to the
    console and is left out. *)

Definition not_ready : Response :=
  Json 503 (BError "Database not ready yet. Try again in a moment.").

(** The paths the routes are registered on. *)
Inductive Route : Type :=
  | Root
  | Products
  | ProductById (id : string)
  | Unmatched.

Definition lower (c : ascii) : ascii :=
  let n := code c in
  if ((65 <=? n) && (n <=? 90))%N then ascii_of_N (n + 32) else c.

Fixpoint lower_string (s : string) : string :=
  match s with
  | EmptyString => EmptyString
  | String c r => String (lower c) (lower_string r)
  end.

(** Routing is not case sensitive, and [:id] takes one non-empty segment. *)
Definition match_path (p : list string) : Route :=
  match p with
  | [] => Root
  | [a; b] =>
      if String.eqb (lower_string a) "api"
         && String.eqb (lower_string b) "products"
      then Products else Unmatched
  | [a; b; id] =>
      if String.eqb (lower_string a) "api"
         && String.eqb (lower_string b) "products"
         && negb (String.eqb id EmptyString)
      then ProductById id else Unmatched
  | _ => Unmatched
  end.

Definition endpoint_not_found : Response :=
  Json 404 (BError "API endpoint not found").

Definition route (m : Method) (p : list string) (q b : gmap string jsval)
  : Prog Response :=
  match m, match_path p with
  | GET, Root => Ret (Json 200 (BLinks ["/api/products"; "/api/products/:id"]))
  | GET, Products => list_products q
  | GET, ProductById id => get_product id
  | POST, Products => create_product b
  | PUT, ProductById id => update_product id b
  | DELETE, ProductById id => delete_product id
  | _, _ => Ret endpoint_not_found
  end.

Definition app (srv : Server) (req : Request) : Prog Response :=
  match body req with
  | BodyError status => Ret (ErrorPage status)
  | JsonBody b =>
      match productsCollection srv with
      | None => Ret not_ready
      | Some _ => route (method req) (path req) (query req) b
      end
  end.

(** One request served: the response, the server afterwards, and the
    collection operations issued on the way.  An exception no handler
    catches ends in the default error handler's 500. *)
Definition serve (env : Mongo.Env) (srv : Server) (req : Request)
  : Response * Server * list Issued :=
  let '(r, c, t) := run (app srv req) env (documents srv) in
  (default (ErrorPage 500) r,
   {| productsCollection := productsCollection srv; documents := c |},
   t).

(** ** A request as it arrives

    Before a route sees a request Express's router has matched the path as
    it stands in the URL and decoded the segment taken as [:id] with
    [decodeURIComponent]; when that throws, the error (status 400) goes to
    [next], no route runs, the fallback (which takes no error) is passed
    over, and the default error handler answers, whatever the method.  A
    HEAD request is served by the GET routes, [res.json] then sending the
    status and the headers without the body.  An OPTIONS request has no
    route and ends in the fallback, which answers before Express's own
    reply to OPTIONS is reached. *)

Inductive Verb : Type :=
  | Verb_of (m : Method)
  | HEAD
  | OPTIONS.

Record Incoming : Type := {
  verb : Verb;
  url : list string;
  search : gmap string jsval;
  parsed : ParsedBody
}.

Definition incoming (v : Verb) (u : list string) (q b : gmap string jsval)
  : Incoming :=
  {| verb := v; url := u; search := q; parsed := JsonBody b |}.

(** The routes on the path [p], its [:id] decoded. *)
Definition dispatch (env : Mongo.Env) (srv : Server) (inc : Incoming)
    (p : list string) : Response * Server * list Issued :=
  match verb inc with
  | Verb_of m =>
      serve env srv
        {| method := m; path := p; query := search inc; body := parsed inc |}
  | HEAD =>
      serve env srv
        {| method := GET; path := p; query := search inc; body := parsed inc |}
  | OPTIONS => (endpoint_not_found, srv, [])
  end.

Definition handle (env : Mongo.Env) (srv : Server) (inc : Incoming)
  : Response * Server * list Issued :=
  match parsed inc, productsCollection srv with
  | BodyError status, _ => (ErrorPage status, srv, [])
  | JsonBody _, None => (not_ready, srv, [])
  | JsonBody _, Some _ =>
      match match_path (url inc) with
      | ProductById raw =>
          match decodeURIComponent raw with
          | URIError => (ErrorPage 400, srv, [])
          | Units id => dispatch env srv inc (<[2%nat := id]> (url inc))
          | Beyond =>
              (* no such id is twelve bytes or twenty-four hex digits *)
              match verb inc with
              | Verb_of GET | HEAD | Verb_of PUT | Verb_of DELETE =>
                  (invalid_id, srv, [])
              | _ => (endpoint_not_found, srv, [])
              end
          end
      | _ => dispatch env srv inc (url inc)
      end
  end.

(* ===================================================================== *)
(** * Properties of programs, and sample data *)
(* ===================================================================== *)

(** Every response the program can return satisfies [P], whatever the
    collection replies. *)
Inductive returns {A} (P : A -> Prop) : Prog A -> Prop :=
  | returns_Ret a : P a -> returns P (Ret a)
  | returns_Throw : returns P Throw
  | returns_Call X (e : Mongo.storeE X) k :
      (forall r, returns P (k r)) -> returns P (Call e k).

(** A list body whose count is the length of its array; any other response
    passes. *)
Definition count_matches (r : Response) : Prop :=
  match r with
  | Json s (BList n l) => s = 200%nat /\ n = length l
  | _ => True
  end.

(** A stored product with its four fields: [_id], [name] and [category]
    are keys of the document, whatever they hold ([null] and the empty
    string included), and the price is a Number other than NaN. *)
Definition complete (d : Mongo.Doc) : Prop :=
  is_Some (d !! "_id") /\ is_Some (d !! "name") /\ is_Some (d !! "category")
  /\ exists x, d !! "price" = Some (VNum x) /\ isNaN x = false.

Definition all_complete (c : Mongo.Coll) : Prop :=
  forall id d, c !! id = Some d -> complete d.

(** What an operation must carry for the stored products to stay
    complete: an inserted document has the three fields, and a price put
    in an update set is a Number other than NaN. *)
Definition keeps_complete {X} (e : Mongo.storeE X) : Prop :=
  match e with
  | Mongo.InsertOne d =>
      is_Some (d !! "name") /\ is_Some (d !! "category")
      /\ exists x, d !! "price" = Some (VNum x) /\ isNaN x = false
  | Mongo.FindOneAndUpdate _ u =>
      forall v, u !! "price" = Some v -> exists x, v = VNum x /\ isNaN x = false
  | _ => True
  end.

(** Every operation the program can issue satisfies [P]. *)
Inductive issues {A} (P : forall X, Mongo.storeE X -> Prop) : Prog A -> Prop :=
  | issues_Ret a : issues P (Ret a)
  | issues_Throw : issues P Throw
  | issues_Call X (e : Mongo.storeE X) k :
      P X e -> (forall r, issues P (k r)) -> issues P (Call e k).

(** A JSON response whose status is one of [statuses]. *)
Definition json_with (statuses : list nat) (r : Response) : Prop :=
  match r with
  | Json s _ => s ∈ statuses
  | ErrorPage _ => False
  end.

(** A handler once its checks are done: it answers at once, or it awaits one
    operation and answers what came back, 500 [{error: "Server error"}]
    when the operation was rejected and 200, 201 or 404 otherwise.  It
    never lets an exception out. *)
Definition awaits_once (p : Prog Response) : Prop :=
  match p with
  | Ret r => json_with [200; 400; 404; 500; 503]%nat r
  | Throw => False
  | Call e k =>
      k Mongo.Rejected = Ret server_error
      /\ forall x, exists a,
           k (Mongo.Resolved x) = Ret a /\ json_with [200; 201; 404]%nat a
  end.

(** The operation a request of method [m] may issue. *)
Definition operation_of (m : Method) {X} (e : Mongo.storeE X) : Prop :=
  match m, e with
  | GET, Mongo.Find _ _ => True
  | GET, Mongo.FindOne _ => True
  | POST, Mongo.InsertOne _ => True
  | PUT, Mongo.FindOneAndUpdate _ _ => True
  | DELETE, Mongo.DeleteOne _ => True
  | _, _ => False
  end.

(** [a] may stand right before [b] in a list sorted by [s]. *)
Definition in_order (s : Mongo.SortSpec) (a b : Mongo.Doc) : Prop :=
  Mongo.comes_before s b a = false.

(** The names [fields] lists: its trimmed segments that are not empty. *)
Definition names (fields : string) : gset string :=
  list_to_set (List.filter (fun s => truthy (Some (VStr s)))
                 (trim <$> split "," fields)).

(** Values other than [undefined] that [Number] turns into [+0] although
    they hold no digit: [null], [false], the empty array, and strings of
    white space. *)
Definition blank (v : jsval) : bool :=
  match v with
  | VNull | VBool false | VArr [] => true
  | VStr s => forallb is_space (list_ascii_of_string s)
  | _ => false
  end.

(** Sample data: three products priced 5, 10 and 15. *)
Definition env_up (id : Mongo.ObjectId) : Mongo.Env :=
  {| Mongo.storeUp := true; Mongo.generatedId := id |}.

Definition shop : Collection :=
  {| dbName := "shop"; collectionName := "products" |}.

Definition product (id : N) (name : string) (price : Z) (category : string)
  : Mongo.Doc :=
  <["_id" := VOid id]> (<["name" := VStr name]> (<["price" := VNum (of_Z price)]>
    (<["category" := VStr category]> ∅))).

Definition pen : Mongo.Doc := product 1 "pen" 5 "office".
Definition lamp : Mongo.Doc := product 2 "lamp" 10 "home".
Definition desk : Mongo.Doc := product 3 "desk" 15 "office".

Definition three_products : Mongo.Coll :=
  <[1%N := pen]> (<[2%N := lamp]> (<[3%N := desk]> ∅)).

Definition ready_server : Server :=
  {| productsCollection := Some shop; documents := three_products |}.

Definition starting_server : Server :=
  {| productsCollection := None; documents := three_products |}.

Definition id1 : string := "000000000000000000000001".
Definition id9 : string := "000000000000000000000009".

Definition request (m : Method) (p : list string) (q b : gmap string jsval)
  : Request :=
  {| method := m; path := p; query := q; body := JsonBody b |}.

(* ===================================================================== *)
(** * Basic facts about the embedding *)
(* ===================================================================== *)

Lemma isValid_newObjectId (id : string) :
  Mongo.isValid id = true -> exists oid, Mongo.newObjectId id = Some oid.
Proof.
  unfold Mongo.isValid, Mongo.newObjectId. intros H.
  destruct ((length _ =? 12)%nat && forallb _ _); [eauto|].
  simpl in H. rewrite H. eauto.
Qed.

Lemma newObjectId_isValid (id : string) (oid : Mongo.ObjectId) :
  Mongo.newObjectId id = Some oid -> Mongo.isValid id = true.
Proof.
  unfold Mongo.isValid, Mongo.newObjectId.
  destruct ((length _ =? 12)%nat && forallb _ _); [done|].
  destruct ((length _ =? 24)%nat && forallb _ _); done.
Qed.

Lemma truthy_Some (v : option jsval) :
  truthy v = true -> exists x, v = Some x.
Proof. destruct v; [eauto | discriminate]. Qed.

Lemma server_eta (srv : Server) :
  {| productsCollection := productsCollection srv; documents := documents srv |} = srv.
Proof. by destruct srv. Qed.

(** A program that returns at once leaves the collection alone. *)
Lemma serve_Ret env srv req r :
  app srv req = Ret r -> serve env srv req = (r, srv, []).
Proof.
  intros H. unfold serve. rewrite H. simpl. by rewrite server_eta.
Qed.

Lemma app_ready srv h m p q b :
  productsCollection srv = Some h ->
  app srv (request m p q b) = route m p q b.
Proof. intros H. unfold app. simpl. by rewrite H. Qed.

Lemma isValid_nonempty (id : string) :
  Mongo.isValid id = true -> id <> EmptyString.
Proof. by intros H ->. Qed.

Lemma app_by_id srv h m id q b :
  productsCollection srv = Some h -> id <> EmptyString ->
  app srv (request m ["api"; "products"; id] q b)
  = match m with
    | GET => get_product id
    | PUT => update_product id b
    | DELETE => delete_product id
    | _ => Ret endpoint_not_found
    end.
Proof.
  intros H Hid. rewrite (app_ready _ _ _ _ _ _ H). unfold route, match_path.
  destruct (String.eqb_spec id EmptyString) as [->|_]; [done|].
  by destruct m.
Qed.

(** A handler that awaits one operation inside its [try]: what [serve]
    makes of it. *)
Lemma serve_Call env srv req X (e : Mongo.storeE X) k :
  app srv req = Call e k ->
  serve env srv req =
    let '(r, c) := Mongo.exec e env (documents srv) in
    let '(a, c', t) := run (k r) env c in
    (default (ErrorPage 500) a,
     {| productsCollection := productsCollection srv; documents := c' |},
     existT _ e :: t).
Proof.
  intros H. unfold serve. rewrite H. simpl.
  destruct (Mongo.exec e env (documents srv)) as [r c].
  by destruct (run (k r) env c) as [[a c'] t].
Qed.

(** ** The shape of each handler *)

Lemma get_product_invalid id :
  Mongo.isValid id = false -> get_product id = Ret invalid_id.
Proof. intros H. unfold get_product. by rewrite H. Qed.

Lemma get_product_valid id oid :
  Mongo.newObjectId id = Some oid ->
  exists k,
    get_product id = Call (Mongo.FindOne oid) k
    /\ k Mongo.Rejected = Ret server_error
    /\ k (Mongo.Resolved None) = Ret not_found
    /\ forall d, k (Mongo.Resolved (Some d)) = Ret (Json 200 (BProduct d)).
Proof.
  intros H. unfold get_product, new_ObjectId.
  rewrite (newObjectId_isValid _ _ H), H. simpl.
  eexists. split; [reflexivity|]. by repeat split.
Qed.

Lemma delete_product_invalid id :
  Mongo.isValid id = false -> delete_product id = Ret invalid_id.
Proof. intros H. unfold delete_product. by rewrite H. Qed.

Lemma delete_product_valid id oid :
  Mongo.newObjectId id = Some oid ->
  exists k,
    delete_product id = Call (Mongo.DeleteOne oid) k
    /\ k Mongo.Rejected = Ret server_error
    /\ forall r, k (Mongo.Resolved r) =
         Ret (if (Mongo.deletedCount r =? 0)%N then not_found
              else Json 200 (BMessage "Product deleted")).
Proof.
  intros H. unfold delete_product, new_ObjectId.
  rewrite (newObjectId_isValid _ _ H), H. simpl.
  eexists. split; [reflexivity|]. split; [done|].
  intros r. simpl. by destruct (_ =? _)%N.
Qed.

Lemma create_product_missing b :
  truthy (b !! "name") = false \/ b !! "price" = None
  \/ truthy (b !! "category") = false ->
  create_product b = Ret missing_fields.
Proof.
  intros H. unfold create_product.
  destruct (truthy (b !! "name")), (b !! "price") as [pr|],
    (truthy (b !! "category")); simpl; try reflexivity;
    destruct H as [H|[H|H]]; discriminate.
Qed.

Lemma create_product_nan b p :
  truthy (b !! "name") = true -> b !! "price" <> None ->
  truthy (b !! "category") = true ->
  Number (b !! "price") = Some p -> isNaN p = true ->
  create_product b = Ret price_not_number.
Proof.
  intros Hn Hp Hc Hnum Hnan. unfold create_product.
  rewrite Hn, Hc, Hnum. simpl. rewrite Hnan. by destruct (b !! "price").
Qed.

Lemma create_product_throws b :
  truthy (b !! "name") = true -> b !! "price" <> None ->
  truthy (b !! "category") = true ->
  Number (b !! "price") = None ->
  create_product b = Ret server_error.
Proof.
  intros Hn Hp Hc Hnum. unfold create_product.
  rewrite Hn, Hc, Hnum. by destruct (b !! "price").
Qed.

Lemma create_product_insert b n c p :
  b !! "name" = Some n -> truthy (Some n) = true ->
  b !! "price" <> None ->
  b !! "category" = Some c -> truthy (Some c) = true ->
  Number (b !! "price") = Some p -> isNaN p = false ->
  exists k,
    create_product b =
      Call (Mongo.InsertOne
              (<["name" := n]> (<["price" := VNum p]>
                                  (<["category" := c]> ∅)))) k
    /\ k Mongo.Rejected = Ret server_error
    /\ forall r, k (Mongo.Resolved r) =
         Ret (Json 201 (BCreated "Product created" (Mongo.insertedId r))).
Proof.
  intros Hn Tn Hp Hc Tc Hnum Hnan. unfold create_product.
  rewrite Hn, Hc, Tn, Tc, Hnum. simpl. rewrite Hnan.
  destruct (b !! "price") as [pr|] eqn:E; [|done]. simpl.
  eexists. split; [reflexivity|]. by split.
Qed.

Lemma list_products_plan q :
  match list_plan q with
  | inl r => list_products q = Ret r
  | inr (f, o) =>
      exists k,
        list_products q = Call (Mongo.Find f o) k
        /\ k Mongo.Rejected = Ret server_error
        /\ forall l, k (Mongo.Resolved l) = Ret (Json 200 (BList (length l) l))
  end.
Proof.
  unfold list_plan, list_products.
  destruct (with_minPrice _ _) as [f|r|]; [|reflexivity..]. simpl.
  destruct (with_sort _ _) as [o|r|]; [|reflexivity..]. simpl.
  unfold with_fields.
  destruct (truthy (q !! "fields")).
  - destruct (q !! "fields") as [[| | |s| | |]|]; try reflexivity.
    simpl. eexists. split; [reflexivity|]. by split.
  - simpl. eexists. split; [reflexivity|]. by split.
Qed.

Lemma update_product_invalid id b :
  Mongo.isValid id = false -> update_product id b = Ret invalid_id.
Proof. intros H. unfold update_product. by rewrite H. Qed.

Lemma update_product_empty id b :
  Mongo.isValid id = true ->
  b !! "name" = None -> b !! "price" = None -> b !! "category" = None ->
  update_product id b = Ret no_update_fields.
Proof.
  intros H Hn Hp Hc. unfold update_product. by rewrite H, Hn, Hp, Hc.
Qed.

Lemma update_of_nan n pr c p :
  Number (Some pr) = Some p -> isNaN p = true ->
  update_of n (Some pr) c = Return price_not_number.
Proof. intros Hnum H. unfold update_of. rewrite Hnum. simpl. by rewrite H. Qed.

Lemma update_of_throws n pr c :
  Number (Some pr) = None -> update_of n (Some pr) c = Raise.
Proof. intros Hnum. unfold update_of. by rewrite Hnum. Qed.

(** The update set holds the supplied fields and nothing else. *)
Lemma update_of_ok n price c p :
  (price = None \/ (Number price = Some p /\ isNaN p = false)) ->
  exists u : gmap string jsval,
    update_of n price c = Continue u
    /\ u !! "name" = n
    /\ u !! "category" = c
    /\ u !! "price" = (fun _ => VNum p) <$> price
    /\ forall key, key <> "name" -> key <> "category" -> key <> "price" ->
         u !! key = None.
Proof.
  intros H. unfold update_of.
  destruct price as [pr|]; simpl.
  - destruct H as [H|[Hnum H]]; [done|]. simpl in Hnum. rewrite Hnum, H.
    eexists. split; [reflexivity|].
    destruct n, c; repeat split; intros; by simplify_map_eq.
  - eexists. split; [reflexivity|].
    destruct n, c; repeat split; intros; by simplify_map_eq.
Qed.

Lemma update_product_valid id oid b u :
  Mongo.newObjectId id = Some oid ->
  ~ (b !! "name" = None /\ b !! "price" = None /\ b !! "category" = None) ->
  update_of (b !! "name") (b !! "price") (b !! "category") = Continue u ->
  exists k,
    update_product id b = Call (Mongo.FindOneAndUpdate oid u) k
    /\ k Mongo.Rejected = Ret server_error
    /\ forall r, k (Mongo.Resolved r) =
         Ret (match Mongo.value r with
              | None => not_found
              | Some d => Json 200 (BUpdated "Product updated" d)
              end).
Proof.
  intros H Hsome Hu. unfold update_product, new_ObjectId.
  rewrite (newObjectId_isValid _ _ H), H, Hu.
  assert (is_undefined (b !! "name") && is_undefined (b !! "price")
          && is_undefined (b !! "category") = false) as ->.
  { destruct (b !! "name"), (b !! "price"), (b !! "category"); try done.
    by destruct Hsome. }
  simpl. eexists. split; [reflexivity|]. split; [done|].
  intros r. simpl. by destruct (Mongo.value r).
Qed.

Lemma update_product_nan id b pr p :
  Mongo.isValid id = true ->
  b !! "price" = Some pr -> Number (Some pr) = Some p -> isNaN p = true ->
  update_product id b = Ret price_not_number.
Proof.
  intros H Hp Hnum Hnan. unfold update_product.
  rewrite H, Hp, (update_of_nan _ _ _ _ Hnum Hnan).
  by destruct (b !! "name"), (b !! "category").
Qed.

Lemma update_product_throws id b pr :
  Mongo.isValid id = true ->
  b !! "price" = Some pr -> Number (Some pr) = None ->
  update_product id b = Ret server_error.
Proof.
  intros H Hp Hnum. unfold update_product.
  rewrite H, Hp, (update_of_throws _ _ _ Hnum).
  by destruct (b !! "name"), (b !! "category").
Qed.

(** ** [split] and [trim] *)












(** ** The collection operations *)

Lemma insert_sorted_perm s d l : Mongo.insert_sorted s d l ≡ₚ d :: l.
Proof.
  induction l as [|x l IH]; simpl; [done|].
  destruct (Mongo.comes_before s d x); [done|].
  rewrite IH. apply Permutation_swap.
Qed.

Lemma sort_docs_perm s l : Mongo.sort_docs s l ≡ₚ l.
Proof.
  destruct s as [spec|]; simpl; [|done].
  induction l as [|x l IH]; simpl; [done|].
  by rewrite insert_sorted_perm, IH.
Qed.

(** [find] returns the projections of the stored documents that match. *)
Lemma elem_of_find f o (c : Mongo.Coll) (d : Mongo.Doc) :
  d ∈ Mongo.find f o c <->
  exists id d0, c !! id = Some d0 /\ Mongo.matches f d0 = true
                /\ d = Mongo.project (Mongo.projection o) d0.
Proof.
  unfold Mongo.find. rewrite list_elem_of_fmap. split.
  - intros (d0 & -> & Hin). rewrite sort_docs_perm in Hin.
    apply list_elem_of_In, filter_In in Hin as [Hin Hm].
    apply list_elem_of_In, list_elem_of_fmap in Hin as ([id d1] & -> & Hin).
    apply elem_of_map_to_list in Hin. by exists id, d1.
  - intros (id & d0 & Hc & Hm & ->). exists d0. split; [done|].
    rewrite sort_docs_perm. apply list_elem_of_In, filter_In. split; [|done].
    apply list_elem_of_In, list_elem_of_fmap. exists (id, d0). split; [done|].
    by apply elem_of_map_to_list.
Qed.



(** The keys of the projection object built from [fields]. *)
Lemma lookup_set_props (l : list string) (acc : gmap string Z) (k : string) :
  foldl (fun projection f => set_number_prop f 1 projection) acc l !! k =
    if decide (k ∈ l /\ k <> "__proto__") then Some 1 else acc !! k.
Proof.
  revert acc. induction l as [|f l IH]; intros acc.
  - cbn [foldl]. destruct (decide (k ∈ [] ∧ k ≠ "__proto__")) as [H|H]; [|done]. destruct H as [H _]. by apply elem_of_nil in H.
  - cbn [foldl]. rewrite IH. unfold set_number_prop.
    destruct (decide (k ∈ l ∧ k ≠ "__proto__")) as [Hl|Hl].
    + destruct Hl as [Hin Hne].
      rewrite decide_True; [done|]. split; [by right|done].
    + destruct (String.eqb_spec f "__proto__") as [->|Hf].
      * rewrite decide_False; [done|].
        intros [Hin Hne]. apply elem_of_cons in Hin as [->|Hin]; [done|].
        by apply Hl.
      * destruct (decide (f = k)) as [->|Hfk].
        -- rewrite lookup_insert_eq, decide_True; [done|].
           split; [by left|done].
        -- rewrite lookup_insert_ne by done. rewrite decide_False; [done|].
           intros [Hin Hne]. apply elem_of_cons in Hin as [->|Hin]; [done|].
           by apply Hl.
Qed.


(** ** Running programs *)

Lemma run_returns {A} (P : A -> Prop) (p : Prog A) env c a :
  returns P p -> (run p env c).1.1 = Some a -> P a.
Proof.
  intros H. revert c. induction H as [a' Ha'| |X e k _ IH]; intros c; simpl.
  - by intros [= <-].
  - done.
  - destruct (Mongo.exec e env c) as [r c'].
    specialize (IH r c').
    by destruct (run (k r) env c') as [[a0 c''] t].
Qed.

(** ** The query translation *)

Lemma with_minPrice_Return m f r :
  with_minPrice m f = Return r -> r = minPrice_not_number.
Proof.
  unfold with_minPrice. destruct (negb _); [|done].
  destruct (Number m) as [mp|]; [|done]. destruct (isNaN mp); [|done].
  by intros [= <-].
Qed.

Lemma with_sort_Return v o r :
  with_sort v o = Return r -> r = Json 400 (BError sort_message).
Proof.
  unfold with_sort. destruct (truthy v); [|done].
  destruct (strict_eq_str v "price"); [done|].
  destruct (strict_eq_str v "-price"); [done|]. by intros [= <-].
Qed.

Lemma list_plan_inl q r :
  list_plan q = inl r -> exists s e, r = Json s (BError e).
Proof.
  unfold list_plan.
  destruct (with_minPrice _ _) as [f|r1|] eqn:E1.
  - destruct (with_sort _ _) as [o|r2|] eqn:E2.
    + destruct (truthy (q !! "fields")); [|done].
      destruct (q !! "fields") as [[]|]; intros [= <-]; by eexists _, _.
    + intros [= <-]. rewrite (with_sort_Return _ _ _ E2). by eexists _, _.
    + intros [= <-]. by eexists _, _.
  - intros [= <-]. rewrite (with_minPrice_Return _ _ _ E1). by eexists _, _.
  - intros [= <-]. by eexists _, _.
Qed.

(** The cases a PUT body falls into. *)
Lemma update_cases (b : gmap string jsval) :
  (b !! "name" = None /\ b !! "price" = None /\ b !! "category" = None)
  \/ (exists pr, b !! "price" = Some pr /\ Number (Some pr) = None)
  \/ (exists pr p, b !! "price" = Some pr /\ Number (Some pr) = Some p
                   /\ isNaN p = true)
  \/ (exists p,
        ~ (b !! "name" = None /\ b !! "price" = None /\ b !! "category" = None)
        /\ (b !! "price" = None
            \/ (Number (b !! "price") = Some p /\ isNaN p = false))).
Proof.
  destruct (b !! "price") as [pr|] eqn:Hp.
  - destruct (Number (Some pr)) as [p|] eqn:Hnum;
      [|right; left; by exists pr].
    destruct (isNaN p) eqn:Hnan.
    + right. right. left. by exists pr, p.
    + right. right. right. exists p. split; [|by right]. by intros (_ & ? & _).
  - destruct (b !! "name") eqn:Hn;
      [right; right; right; exists NaN; split; [by intros (?&_)|by left]|].
    destruct (b !! "category") eqn:Hc;
      [right; right; right; exists NaN; split; [by intros (_&_&?)|by left]|].
    by left.
Qed.

(** The cases a POST body falls into. *)
Lemma create_cases (b : gmap string jsval) :
  (truthy (b !! "name") = false \/ b !! "price" = None
   \/ truthy (b !! "category") = false)
  \/ (truthy (b !! "name") = true /\ b !! "price" <> None
      /\ truthy (b !! "category") = true
      /\ Number (b !! "price") = None)
  \/ (exists p, truthy (b !! "name") = true /\ b !! "price" <> None
      /\ truthy (b !! "category") = true
      /\ Number (b !! "price") = Some p /\ isNaN p = true)
  \/ (exists n c p, b !! "name" = Some n /\ truthy (Some n) = true
      /\ b !! "price" <> None
      /\ b !! "category" = Some c /\ truthy (Some c) = true
      /\ Number (b !! "price") = Some p /\ isNaN p = false).
Proof.
  destruct (truthy (b !! "name")) eqn:Hn; [|by left; left].
  destruct (truthy (b !! "category")) eqn:Hc; [|by left; right; right].
  destruct (b !! "price") as [pr|] eqn:Hp; [|by left; right; left].
  destruct (truthy_Some _ Hn) as [n En], (truthy_Some _ Hc) as [c Ec].
  destruct (Number (Some pr)) as [p|] eqn:Hnum; [|by right; left].
  destruct (isNaN p) eqn:Hnan.
  - right. right. left. by exists p.
  - right. right. right. exists n, c, p. rewrite En in Hn. rewrite Ec in Hc. done.
Qed.

(** Only the list handler sends a list body, and it counts what it sends. *)
Lemma route_count_matches m p q b : returns count_matches (route m p q b).
Proof.
  unfold route.
  destruct m, (match_path p) as [| |id|]; try (by constructor).
  - (* GET /api/products *)
    pose proof (list_products_plan q) as H.
    destruct (list_plan q) as [r|[f o]] eqn:E.
    + rewrite H. constructor. by destruct (list_plan_inl _ _ E) as (s & e & ->).
    + destruct H as (k & -> & Hrej & Hres). constructor.
      intros [l|]; [rewrite Hres|rewrite Hrej]; by constructor.
  - (* GET /api/products/:id *)
    destruct (Mongo.isValid id) eqn:Hv.
    + destruct (isValid_newObjectId _ Hv) as [oid Ho].
      destruct (get_product_valid _ _ Ho) as (k & -> & Hrej & Hnone & Hsome).
      constructor. intros [[d|]|]; [rewrite Hsome|rewrite Hnone|rewrite Hrej];
        by constructor.
    + rewrite get_product_invalid by done. by constructor.
  - (* POST /api/products *)
    destruct (create_cases b)
      as [H|[(Hn & Hp & Hc & Hnum)|[(pn & Hn & Hp & Hc & Hnum & Hnan)
         |(n & c & pn & Hn & Tn & Hp & Hc & Tc & Hnum & Hnan)]]].
    + rewrite create_product_missing by done. by constructor.
    + rewrite create_product_throws by done. by constructor.
    + rewrite (create_product_nan _ pn) by done. by constructor.
    + destruct (create_product_insert _ _ _ _ Hn Tn Hp Hc Tc Hnum Hnan)
        as (k & -> & Hrej & Hres).
      constructor. intros [r|]; [rewrite Hres|rewrite Hrej]; by constructor.
  - (* PUT /api/products/:id *)
    destruct (Mongo.isValid id) eqn:Hv.
    + destruct (isValid_newObjectId _ Hv) as [oid Ho].
      destruct (update_cases b)
        as [(Hn & Hp & Hc)|[(pr & Hp & Hnum)|[(pr & pn & Hp & Hnum & Hnan)
           |(pn & Hsome & Hp)]]].
      * rewrite update_product_empty by done. by constructor.
      * rewrite (update_product_throws _ _ _ Hv Hp Hnum). by constructor.
      * rewrite (update_product_nan _ _ _ _ Hv Hp Hnum Hnan). by constructor.
      * destruct (update_of_ok (b !! "name") _ (b !! "category") pn Hp) as (u & Hu & _).
        destruct (update_product_valid _ _ _ _ Ho Hsome Hu) as (k & -> & Hrej & Hres).
        constructor. intros [r|]; [rewrite Hres|rewrite Hrej]; [|by constructor].
        destruct (Mongo.value r); by constructor.
    + rewrite update_product_invalid by done. by constructor.
  - (* DELETE /api/products/:id *)
    destruct (Mongo.isValid id) eqn:Hv.
    + destruct (isValid_newObjectId _ Hv) as [oid Ho].
      destruct (delete_product_valid _ _ Ho) as (k & -> & Hrej & Hres).
      constructor. intros [r|]; [rewrite Hres|rewrite Hrej]; [|by constructor].
      destruct (_ =? _)%N; by constructor.
    + rewrite delete_product_invalid by done. by constructor.
Qed.

Lemma app_count_matches srv req : returns count_matches (app srv req).
Proof.
  unfold app. destruct (body req) as [b|st]; [|by constructor].
  destruct (productsCollection srv); [|by constructor].
  apply route_count_matches.
Qed.

Lemma serve_one_call env srv req X (e : Mongo.storeE X) k r c' resp :
  app srv req = Call e k ->
  Mongo.exec e env (documents srv) = (r, c') ->
  k r = Ret resp ->
  serve env srv req =
    (resp, {| productsCollection := productsCollection srv; documents := c' |},
     [existT _ e]).
Proof.
  intros Happ Hexec Hk. rewrite (serve_Call _ _ _ _ _ _ Happ), Hexec, Hk.
  reflexivity.
Qed.

Lemma exec_up {X} (e : Mongo.storeE X) env c :
  Mongo.storeUp env = true ->
  Mongo.exec e env c =
    match e in Mongo.storeE X return Mongo.Settled X * Mongo.Coll with
    | Mongo.Find f o => (Mongo.Resolved (Mongo.find f o c), c)
    | Mongo.FindOne id => (Mongo.Resolved (Mongo.findOne id c), c)
    | Mongo.InsertOne d =>
        match c !! Mongo.generatedId env with
        | Some _ => (Mongo.Rejected, c)
        | None => (Mongo.Resolved {| Mongo.insertedId := Mongo.generatedId env |},
                   <[Mongo.generatedId env :=
                       <["_id" := VOid (Mongo.generatedId env)]> d]> c)
        end
    | Mongo.FindOneAndUpdate id update =>
        match c !! id with
        | Some d =>
            (Mongo.Resolved {| Mongo.value := Some (Mongo.apply_set update d) |},
             <[id := Mongo.apply_set update d]> c)
        | None => (Mongo.Resolved {| Mongo.value := None |}, c)
        end
    | Mongo.DeleteOne id =>
        match c !! id with
        | Some _ => (Mongo.Resolved {| Mongo.deletedCount := 1 |}, delete id c)
        | None => (Mongo.Resolved {| Mongo.deletedCount := 0 |}, c)
        end
    end.
Proof. intros H. unfold Mongo.exec. rewrite H. by destruct e. Qed.

Lemma exec_down {X} (e : Mongo.storeE X) env c :
  Mongo.storeUp env = false -> Mongo.exec e env c = (Mongo.Rejected, c).
Proof. intros H. unfold Mongo.exec. by rewrite H. Qed.

(* ===================================================================== *)
(** * The claims *)
(* ===================================================================== *)

(** ** C10 *)

(** C10.  A list response of GET /api/products carries a [count] equal to
    the number of elements of its [products] array: whenever a response has
    the list body, its status is 200 and its count is the length of the
    array; and a query that passes validation (its category no operator
    document), with the collection reachable, gets exactly that body,
    filled with what [find] returned. *)
Theorem list_count_is_length (env : Mongo.Env) (srv : Server) (req : Request) :
  (forall s n l, (serve env srv req).1.1 = Json s (BList n l) ->
                 s = 200%nat /\ n = length l)
  /\ (forall h q b f o,
        productsCollection srv = Some h ->
        Mongo.storeUp env = true ->
        req = request GET ["api"; "products"] q b ->
        list_plan q = inr (f, o) ->
        plain_category q = true ->
        (serve env srv req).1.1 =
          Json 200 (BList (length (Mongo.find f o (documents srv)))
                          (Mongo.find f o (documents srv)))).
Proof.
  split.
  - intros s n l H.
    pose proof (app_count_matches srv req) as Hret.
    unfold serve in H.
    destruct (run (app srv req) env (documents srv)) as [[a c] t] eqn:E.
    simpl in H. destruct a as [r|]; simpl in H; [|discriminate].
    assert ((run (app srv req) env (documents srv)).1.1 = Some r) as Hr
      by by rewrite E.
    apply (run_returns _ _ _ _ _ Hret) in Hr. by subst r.
  - intros h q b f o Hh Hup -> Hplan _.
    pose proof (list_products_plan q) as H. rewrite Hplan in H.
    destruct H as (k & Hk & _ & Hres).
    erewrite serve_one_call; [reflexivity| | |apply Hres].
    + rewrite (app_ready _ _ _ _ _ _ Hh). exact Hk.
    + by rewrite exec_up.
Qed.

Lemma list_count_is_length_witness :
  (serve (env_up 9%N) ready_server (request GET ["api"; "products"] ∅ ∅)).1.1
  = Json 200 (BList 3 [lamp; desk; pen]).
Proof.
  etransitivity.
  - apply (proj2 (list_count_is_length (env_up 9%N) ready_server
                    (request GET ["api"; "products"] ∅ ∅))
             shop ∅ ∅ {| Mongo.category := None; Mongo.price := None |}
             {| Mongo.sort := None; Mongo.projection := None |});
      vm_compute; reflexivity.
  - vm_compute. reflexivity.
Defined.

(** ** C9 *)

(** C9 (as stated, refuted).  Before the handle is assigned, a request whose
    JSON body [express.json()] rejects is answered by the default error
    handler with the parser's status, here 400, not with 503:
    [express.json()] is registered before the readiness check. *)
Lemma not_ready_malformed_body :
  productsCollection starting_server = None
  /\ (serve (env_up 9%N) starting_server
        {| method := POST; path := ["api"; "products"]; query := ∅;
           body := BodyError 400 |}).1.1 = ErrorPage 400
  /\ status_of
       (serve (env_up 9%N) starting_server
          {| method := POST; path := ["api"; "products"]; query := ∅;
             body := BodyError 400 |}).1.1 <> 503%nat.
Proof. repeat split. discriminate. Qed.

(** C9 (amended).  Until the handle [productsCollection] is assigned, every
    request whose body passed [express.json()] is answered 503 with
    [{error: "Database not ready yet. Try again in a moment."}]; the others
    get the body parser's error; and no request, whatever its body, issues
    a collection operation or changes the server.  Once the handle is
    assigned, a request whose body passed goes to the routes. *)
Theorem not_ready_rejects (env : Mongo.Env) (srv : Server) (req : Request) :
  productsCollection srv = None ->
  (forall b, body req = JsonBody b ->
     (serve env srv req).1.1 = Json 503
       (BError "Database not ready yet. Try again in a moment."))
  /\ (forall status, body req = BodyError status ->
        (serve env srv req).1.1 = ErrorPage status)
  /\ (serve env srv req).2 = []
  /\ (serve env srv req).1.2 = srv
  /\ (forall DB_NAME COLLECTION_NAME b,
        body req = JsonBody b ->
        app (connected DB_NAME COLLECTION_NAME srv) req
        = route (method req) (path req) (query req) b).
Proof.
  intros Hnone.
  assert (exists r, app srv req = Ret r
                    /\ (forall b, body req = JsonBody b -> r = not_ready)
                    /\ (forall st, body req = BodyError st -> r = ErrorPage st))
    as (r & Happ & Hb & He).
  { unfold app. rewrite Hnone. destruct (body req) as [b|st].
    - exists not_ready. by repeat split.
    - exists (ErrorPage st). repeat split; [done|]. by intros ? [= ->]. }
  rewrite (serve_Ret env _ _ _ Happ). simpl. repeat split; auto.
  intros db coll b Eb. unfold app. by rewrite Eb.
Qed.

Lemma not_ready_rejects_witness :
  (serve (env_up 9%N) starting_server
     (request DELETE ["api"; "products"; id1] ∅ ∅)).1.1
  = Json 503 (BError "Database not ready yet. Try again in a moment.")
  /\ (serve (env_up 9%N) starting_server
        (request DELETE ["api"; "products"; id1] ∅ ∅)).1.2 = starting_server.
Proof.
  pose proof (not_ready_rejects (env_up 9%N) starting_server
                (request DELETE ["api"; "products"; id1] ∅ ∅) eq_refl)
    as (Hb & _ & _ & Hsrv & _).
  split; [exact (Hb ∅ eq_refl) | exact Hsrv].
Defined.

(** ** C7 *)

(** C7.  GET and DELETE on /api/products/:id: an identifier (a non-empty
    path segment) that is not a valid ObjectId gets 400 (so not 404) before
    any collection operation;
    a valid identifier naming no document gets 404 [{error: "Not found"}];
    and deleting an existing document twice gets 200 and then 404.  The
    collection is reachable in the last two cases. *)
Theorem by_id_statuses (env env' : Mongo.Env) (srv : Server) (h : Collection)
    (m : Method) (id : string) (q b : gmap string jsval) :
  productsCollection srv = Some h ->
  m = GET \/ m = DELETE ->
  (id <> EmptyString -> Mongo.isValid id = false ->
     serve env srv (request m ["api"; "products"; id] q b)
     = (Json 400 (BError "Invalid id"), srv, []))
  /\ (forall oid,
        Mongo.isValid id = true -> Mongo.newObjectId id = Some oid ->
        Mongo.storeUp env = true -> documents srv !! oid = None ->
        (serve env srv (request m ["api"; "products"; id] q b)).1.1
        = Json 404 (BError "Not found"))
  /\ (forall oid d,
        m = DELETE ->
        Mongo.newObjectId id = Some oid -> documents srv !! oid = Some d ->
        Mongo.storeUp env = true -> Mongo.storeUp env' = true ->
        (serve env srv (request m ["api"; "products"; id] q b)).1.1
        = Json 200 (BMessage "Product deleted")
        /\ (serve env'
              (serve env srv (request m ["api"; "products"; id] q b)).1.2
              (request m ["api"; "products"; id] q b)).1.1
           = Json 404 (BError "Not found")).
Proof.
  intros Hh Hm. split; [|split].
  - intros Hid Hv. apply serve_Ret. rewrite (app_by_id _ _ _ _ _ _ Hh Hid).
    destruct Hm as [-> | ->].
    + by apply get_product_invalid.
    + by apply delete_product_invalid.
  - intros oid Hv Ho Hup Hnone.
    pose proof (isValid_nonempty _ Hv) as Hid.
    destruct Hm as [-> | ->].
    + destruct (get_product_valid _ _ Ho) as (k & Hk & _ & Hk0 & _).
      erewrite serve_one_call; [reflexivity| | |exact Hk0].
      * rewrite (app_by_id _ _ _ _ _ _ Hh Hid). exact Hk.
      * rewrite exec_up by done. unfold Mongo.findOne. by rewrite Hnone.
    + destruct (delete_product_valid _ _ Ho) as (k & Hk & _ & Hkr).
      erewrite serve_one_call;
        [reflexivity| | |exact (Hkr {| Mongo.deletedCount := 0 |})].
      * rewrite (app_by_id _ _ _ _ _ _ Hh Hid). exact Hk.
      * rewrite exec_up by done. by rewrite Hnone.
  - intros oid d -> Ho Hd Hup Hup'.
    pose proof (isValid_nonempty _ (newObjectId_isValid _ _ Ho)) as Hid.
    destruct (delete_product_valid _ _ Ho) as (k & Hk & _ & Hkr).
    assert (forall srv', productsCollection srv' = Some h ->
              app srv' (request DELETE ["api"; "products"; id] q b)
              = Call (Mongo.DeleteOne oid) k) as Happ
      by (intros srv' Hh'; rewrite (app_by_id _ _ _ _ _ _ Hh' Hid); exact Hk).
    erewrite (serve_one_call env srv);
      [|by apply Happ|rewrite exec_up by done; rewrite Hd; reflexivity
       |exact (Hkr {| Mongo.deletedCount := 1 |})].
    split; [reflexivity|]. simpl.
    erewrite serve_one_call;
      [reflexivity|by apply Happ| |exact (Hkr {| Mongo.deletedCount := 0 |})].
    rewrite exec_up by done. simpl. by rewrite lookup_delete_eq.
Qed.

Lemma by_id_statuses_witness :
  serve (env_up 9%N) ready_server (request GET ["api"; "products"; "not-an-id"] ∅ ∅)
  = (Json 400 (BError "Invalid id"), ready_server, [])
  /\ (serve (env_up 9%N) ready_server
        (request DELETE ["api"; "products"; id9] ∅ ∅)).1.1
     = Json 404 (BError "Not found")
  /\ (serve (env_up 9%N) ready_server
        (request DELETE ["api"; "products"; id1] ∅ ∅)).1.1
     = Json 200 (BMessage "Product deleted")
  /\ (serve (env_up 9%N)
        (serve (env_up 9%N) ready_server
           (request DELETE ["api"; "products"; id1] ∅ ∅)).1.2
        (request DELETE ["api"; "products"; id1] ∅ ∅)).1.1
     = Json 404 (BError "Not found").
Proof.
  split; [|split].
  - apply (proj1 (by_id_statuses (env_up 9%N) (env_up 9%N) ready_server
                    shop GET "not-an-id" ∅ ∅ eq_refl (or_introl eq_refl)));
      [discriminate|vm_compute; reflexivity].
  - apply (proj1 (proj2 (by_id_statuses (env_up 9%N) (env_up 9%N) ready_server
                           shop DELETE id9 ∅ ∅ eq_refl (or_intror eq_refl)))
             9%N);
      vm_compute; reflexivity.
  - apply (proj2 (proj2 (by_id_statuses (env_up 9%N) (env_up 9%N) ready_server
                           shop DELETE id1 ∅ ∅ eq_refl (or_intror eq_refl)))
             1%N pen eq_refl);
      vm_compute; reflexivity.
Defined.

(** ** C1 *)

Lemma lookup_apply_set (u d : Mongo.Doc) (key : string) :
  Mongo.apply_set u d !! key =
    match u !! key with Some v => Some v | None => d !! key end.
Proof.
  unfold Mongo.apply_set. rewrite lookup_union.
  by destruct (u !! key), (d !! key).
Qed.

(** C1.  PUT /api/products/:id with a valid identifier, a body supplying at
    least one of name, price and category, and a price, if supplied, that
    [Number] turns into a Number [p] other than NaN (the collection being
    reachable).  If a document with that [_id] exists, the response is 200
    with [{message: "Product updated", product}], where [product] is the
    stored document after the update: each supplied field has its new value
    (the price as a Number) and every other field is as before.  If none
    exists, the response is 404 [{error: "Not found"}] and nothing changes.
    The handler tells the two apart by the [value] field of the result of
    [findOneAndUpdate], the one operation it issues; a rejected operation
    is answered 500. *)
Theorem update_existing_or_missing (env : Mongo.Env) (srv : Server)
    (h : Collection) (id : string) (oid : Mongo.ObjectId)
    (q b : gmap string jsval) (p : number) :
  productsCollection srv = Some h ->
  Mongo.storeUp env = true ->
  Mongo.isValid id = true ->
  Mongo.newObjectId id = Some oid ->
  ~ (b !! "name" = None /\ b !! "price" = None /\ b !! "category" = None) ->
  (b !! "price" = None
   \/ (Number (b !! "price") = Some p /\ isNaN p = false)) ->
  exists (u : Mongo.Doc) k,
    update_product id b = Call (Mongo.FindOneAndUpdate oid u) k
    /\ k Mongo.Rejected = Ret (Json 500 (BError "Server error"))
    /\ (forall r, k (Mongo.Resolved r) =
           Ret (match Mongo.value r with
                | None => Json 404 (BError "Not found")
                | Some d => Json 200 (BUpdated "Product updated" d)
                end))
    /\ (serve env srv (request PUT ["api"; "products"; id] q b)).2
       = [existT _ (Mongo.FindOneAndUpdate oid u)]
    /\ match documents srv !! oid with
       | Some d =>
           exists d' : Mongo.Doc,
             (serve env srv (request PUT ["api"; "products"; id] q b)).1.1
             = Json 200 (BUpdated "Product updated" d')
             /\ documents
                  (serve env srv (request PUT ["api"; "products"; id] q b)).1.2
                = <[oid := d']> (documents srv)
             /\ d' !! "name"
                = (if b !! "name" is Some v then Some v else d !! "name")
             /\ d' !! "category"
                = (if b !! "category" is Some v then Some v
                   else d !! "category")
             /\ d' !! "price"
                = (if b !! "price" is Some _ then Some (VNum p)
                   else d !! "price")
             /\ (forall key,
                   key <> "name" -> key <> "category" -> key <> "price" ->
                   d' !! key = d !! key)
       | None =>
           (serve env srv (request PUT ["api"; "products"; id] q b)).1
           = (Json 404 (BError "Not found"), srv)
       end.
Proof.
  intros Hh Hup Hv Ho Hsome Hp.
  destruct (update_of_ok (b !! "name") _ (b !! "category") p Hp)
    as (u & Hu & Hun & Huc & Hupr & Huo).
  destruct (update_product_valid _ _ _ _ Ho Hsome Hu) as (k & Hk & Hrej & Hres).
  exists u, k. split; [done|]. split; [done|]. split; [done|].
  assert (app srv (request PUT ["api"; "products"; id] q b)
          = Call (Mongo.FindOneAndUpdate oid u) k) as Happ
    by (rewrite (app_by_id _ _ _ _ _ _ Hh (isValid_nonempty _ Hv)); exact Hk).
  destruct (documents srv !! oid) as [d|] eqn:Hd.
  - erewrite serve_one_call;
      [|exact Happ|rewrite exec_up by done; rewrite Hd; reflexivity|apply Hres].
    split; [done|]. exists (Mongo.apply_set u d). simpl. repeat split.
    + rewrite lookup_apply_set, Hun. by destruct (b !! "name").
    + rewrite lookup_apply_set, Huc. by destruct (b !! "category").
    + rewrite lookup_apply_set, Hupr. by destruct (b !! "price").
    + intros key H1 H2 H3. by rewrite lookup_apply_set, Huo.
  - erewrite serve_one_call;
      [|exact Happ|rewrite exec_up by done; rewrite Hd; reflexivity|apply Hres].
    split; [done|]. simpl. by rewrite server_eta.
Qed.

Lemma update_existing_or_missing_witness :
  exists d' : Mongo.Doc,
    (serve (env_up 9%N) ready_server
       (request PUT ["api"; "products"; id1] ∅ {["category" := VStr "x"]})).1.1
    = Json 200 (BUpdated "Product updated" d')
    /\ d' !! "category" = Some (VStr "x")
    /\ d' !! "name" = pen !! "name"
    /\ d' !! "price" = pen !! "price"
    /\ d' !! "_id" = pen !! "_id".
Proof.
  destruct (update_existing_or_missing (env_up 9%N) ready_server shop
              id1 1%N ∅ {["category" := VStr "x"]} NaN
              eq_refl eq_refl eq_refl eq_refl
              ltac:(intros (_ & _ & H); vm_compute in H; discriminate)
              (or_introl eq_refl)) as (u & k & _ & _ & _ & _ & H).
  change (documents ready_server !! 1%N) with (Some pen) in H.
  destruct H as (d' & Hr & _ & Hn & Hc & Hp & Hother).
  exists d'. split; [exact Hr|]. split; [exact Hc|]. split; [exact Hn|].
  split; [exact Hp|]. by apply Hother.
Defined.

(** ** C2 *)






(** ** C3 *)


(** The keys of the projection: the trimmed, non-empty segments of
    [fields], [__proto__] excepted; every value is 1. *)
Lemma projection_of_keys (s k : string) :
  projection_of s !! k =
    if decide (k ∈ trim <$> split "," s /\ k <> EmptyString /\ k <> "__proto__")
    then Some 1 else None.
Proof.
  unfold projection_of. rewrite lookup_set_props, lookup_empty.
  destruct (decide (k ∈ List.filter _ _ /\ _)) as [[Hin Hp]|Hn].
  - apply list_elem_of_In, filter_In in Hin as [Hin Hne].
    rewrite decide_True; [done|]. apply list_elem_of_In in Hin.
    repeat split; [done| |done]. intros ->. by simpl in Hne.
  - rewrite decide_False; [done|]. intros (Hin & Hne & Hp). apply Hn.
    split; [|done]. apply list_elem_of_In, filter_In. split.
    + by apply list_elem_of_In.
    + simpl. by destruct (String.eqb_spec k EmptyString).
Qed.





(** ** C8 *)






(** ** C6 *)

(** C6 (as stated, refuted).  A PUT whose body is [{price: "Infinity"}]
    supplies a price that is not a finite number, yet it is not answered
    400: the update goes to the collection with [price: Infinity]. *)
Lemma update_Infinity_accepted :
  Number (Some (VStr "Infinity")) = Some Infinity
  /\ isFinite Infinity = false
  /\ (serve (env_up 9%N) ready_server
        (request PUT ["api"; "products"; id1] ∅ {["price" := VStr "Infinity"]})).1.1
     = Json 200 (BUpdated "Product updated" (<["price" := VNum Infinity]> pen)).
Proof. repeat split; vm_compute; reflexivity. Qed.

(** C6 (amended).  On PUT /api/products/:id: an identifier (a non-empty
    path segment) that is not a valid ObjectId gets 400; a body with none of name, price and category
    gets 400; a supplied price that [Number] turns into NaN gets 400 (one on
    which [Number] throws gets 500); each of these is returned without any
    collection operation and leaves the server as it was.  Otherwise (a
    price of Infinity included) exactly one operation is issued,
    [findOneAndUpdate] on that [_id], and its update set holds the supplied
    fields, the price as a Number, and no other. *)
Theorem update_validation (env : Mongo.Env) (srv : Server) (h : Collection)
    (id : string) (q b : gmap string jsval) (p : number) :
  productsCollection srv = Some h ->
  (id <> EmptyString -> Mongo.isValid id = false ->
     serve env srv (request PUT ["api"; "products"; id] q b)
     = (Json 400 (BError "Invalid id"), srv, []))
  /\ (Mongo.isValid id = true ->
      b !! "name" = None -> b !! "price" = None -> b !! "category" = None ->
      serve env srv (request PUT ["api"; "products"; id] q b)
      = (Json 400 (BError "Provide at least one field: name, price, category"),
         srv, []))
  /\ (forall pr,
        Mongo.isValid id = true ->
        b !! "price" = Some pr -> Number (Some pr) = Some p -> isNaN p = true ->
        serve env srv (request PUT ["api"; "products"; id] q b)
        = (Json 400 (BError "price must be a number"), srv, []))
  /\ (forall pr,
        Mongo.isValid id = true ->
        b !! "price" = Some pr -> Number (Some pr) = None ->
        serve env srv (request PUT ["api"; "products"; id] q b)
        = (Json 500 (BError "Server error"), srv, []))
  /\ (Mongo.isValid id = true ->
      ~ (b !! "name" = None /\ b !! "price" = None /\ b !! "category" = None) ->
      b !! "price" = None \/ (Number (b !! "price") = Some p /\ isNaN p = false) ->
      exists oid (u : gmap string jsval),
        Mongo.newObjectId id = Some oid
        /\ (serve env srv (request PUT ["api"; "products"; id] q b)).2
           = [existT _ (Mongo.FindOneAndUpdate oid u)]
        /\ u !! "name" = b !! "name"
        /\ u !! "category" = b !! "category"
        /\ u !! "price" = (fun _ => VNum p) <$> b !! "price"
        /\ forall key, key <> "name" -> key <> "category" -> key <> "price" ->
             u !! key = None).
Proof.
  intros Hh. repeat split.
  - intros Hid Hv. apply serve_Ret. rewrite (app_by_id _ _ _ _ _ _ Hh Hid).
    by apply update_product_invalid.
  - intros Hv Hn Hp Hc. apply serve_Ret.
    rewrite (app_by_id _ _ _ _ _ _ Hh (isValid_nonempty _ Hv)).
    by apply update_product_empty.
  - intros pr Hv Hp Hnum Hnan. apply serve_Ret.
    rewrite (app_by_id _ _ _ _ _ _ Hh (isValid_nonempty _ Hv)).
    by apply (update_product_nan _ _ pr p).
  - intros pr Hv Hp Hnum. apply serve_Ret.
    rewrite (app_by_id _ _ _ _ _ _ Hh (isValid_nonempty _ Hv)).
    by apply (update_product_throws _ _ pr).
  - intros Hv Hsome Hp.
    destruct (isValid_newObjectId _ Hv) as [oid Ho].
    destruct (update_of_ok (b !! "name") _ (b !! "category") p Hp)
      as (u & Hu & Hun & Huc & Hupr & Huo).
    destruct (update_product_valid _ _ _ _ Ho Hsome Hu) as (k & Hk & Hrej & Hres).
    exists oid, u. repeat split; [done| |done..].
    rewrite (serve_Call env srv _ _ (Mongo.FindOneAndUpdate oid u) k)
      by (rewrite (app_by_id _ _ _ _ _ _ Hh (isValid_nonempty _ Hv)); exact Hk).
    destruct (Mongo.exec _ env (documents srv)) as [[r|] c'].
    + rewrite Hres. reflexivity.
    + rewrite Hrej. reflexivity.
Qed.

Lemma update_validation_witness :
  serve (env_up 9%N) ready_server (request PUT ["api"; "products"; id1] ∅ ∅)
  = (Json 400 (BError "Provide at least one field: name, price, category"),
     ready_server, [])
  /\ serve (env_up 9%N) ready_server
       (request PUT ["api"; "products"; id1] ∅ {["price" := VStr "abc"]})
     = (Json 400 (BError "price must be a number"), ready_server, [])
  /\ serve (env_up 9%N) ready_server
       (request PUT ["api"; "products"; "not-an-id"] ∅ {["price" := VStr "1"]})
     = (Json 400 (BError "Invalid id"), ready_server, [])
  /\ exists oid (u : gmap string jsval),
       (serve (env_up 9%N) ready_server
          (request PUT ["api"; "products"; id1] ∅ {["category" := VStr "x"]})).2
       = [existT _ (Mongo.FindOneAndUpdate oid u)]
       /\ u !! "category" = Some (VStr "x") /\ u !! "name" = None
       /\ u !! "price" = None.
Proof.
  split; [|split; [|split]].
  - apply (proj1 (proj2 (update_validation (env_up 9%N) ready_server shop id1
                           ∅ ∅ NaN eq_refl))); vm_compute; reflexivity.
  - apply (proj1 (proj2 (proj2 (update_validation (env_up 9%N) ready_server shop
                                  id1 ∅ {["price" := VStr "abc"]} NaN eq_refl)))
             (VStr "abc")); vm_compute; reflexivity.
  - apply (proj1 (update_validation (env_up 9%N) ready_server shop "not-an-id"
                    ∅ {["price" := VStr "1"]} NaN eq_refl));
      [discriminate|vm_compute; reflexivity].
  - destruct (proj2 (proj2 (proj2 (proj2
                (update_validation (env_up 9%N) ready_server
                   shop id1 ∅ {["category" := VStr "x"]} NaN eq_refl)))))
      as (oid & u & _ & Ht & Hn & Hc & Hp & _).
    + vm_compute; reflexivity.
    + intros (_ & _ & H). vm_compute in H. discriminate.
    + left. vm_compute; reflexivity.
    + exists oid, u. split; [exact Ht|]. split; [exact Hc|].
      split; [exact Hn|exact Hp].
Defined.

(** ** C5 *)

(** C5 (as stated, refuted).  A POST whose price is ["Infinity"] has a price
    that is present and not a finite number, yet it is answered 201 and the
    product is stored with [price: Infinity]. *)
Lemma create_Infinity_accepted :
  Number (Some (VStr "Infinity")) = Some Infinity
  /\ isFinite Infinity = false
  /\ (serve (env_up 9%N) ready_server
        (request POST ["api"; "products"] ∅
           (<["name" := VStr "ink"]> (<["price" := VStr "Infinity"]>
              (<["category" := VStr "office"]> ∅))))).1.1
     = Json 201 (BCreated "Product created" 9%N)
  /\ documents
       (serve (env_up 9%N) ready_server
          (request POST ["api"; "products"] ∅
             (<["name" := VStr "ink"]> (<["price" := VStr "Infinity"]>
                (<["category" := VStr "office"]> ∅))))).1.2 !! 9%N
     = Some (<["_id" := VOid 9]> (<["name" := VStr "ink"]>
              (<["price" := VNum Infinity]> (<["category" := VStr "office"]> ∅)))).
Proof. repeat split; vm_compute; reflexivity. Qed.

(** C5 (amended).  On POST /api/products: a name or category that is absent
    or falsy (the empty string among them), or an absent price, gets 400
    [{error: "Missing required fields: name, price, category"}]; otherwise a
    price that [Number] turns into NaN gets 400
    [{error: "price must be a number"}] (one on which [Number] throws gets
    500); none of these calls the collection.
    Otherwise (a price of Infinity included) the one operation issued is the
    insert of exactly [{name, price: Number(price), category}]; when the
    collection accepts it the response is 201
    [{message: "Product created", id}] with the new [_id], under which the
    record is stored; when it rejects it the response is 500. *)
Theorem create_validation (env : Mongo.Env) (srv : Server) (h : Collection)
    (q b : gmap string jsval) (p : number) :
  productsCollection srv = Some h ->
  (truthy (b !! "name") = false \/ b !! "price" = None
   \/ truthy (b !! "category") = false ->
   serve env srv (request POST ["api"; "products"] q b)
   = (Json 400 (BError "Missing required fields: name, price, category"),
      srv, []))
  /\ (truthy (b !! "name") = true -> b !! "price" <> None ->
      truthy (b !! "category") = true ->
      Number (b !! "price") = Some p -> isNaN p = true ->
      serve env srv (request POST ["api"; "products"] q b)
      = (Json 400 (BError "price must be a number"), srv, []))
  /\ (truthy (b !! "name") = true -> b !! "price" <> None ->
      truthy (b !! "category") = true ->
      Number (b !! "price") = None ->
      serve env srv (request POST ["api"; "products"] q b)
      = (Json 500 (BError "Server error"), srv, []))
  /\ (forall n c,
        b !! "name" = Some n -> truthy (Some n) = true ->
        b !! "price" <> None ->
        b !! "category" = Some c -> truthy (Some c) = true ->
        Number (b !! "price") = Some p -> isNaN p = false ->
        (serve env srv (request POST ["api"; "products"] q b)).2
        = [existT _ (Mongo.InsertOne
                      (<["name" := n]>
                         (<["price" := VNum p]> (<["category" := c]> ∅))))]
        /\ (Mongo.storeUp env = true ->
            documents srv !! Mongo.generatedId env = None ->
            (serve env srv (request POST ["api"; "products"] q b)).1.1
            = Json 201 (BCreated "Product created" (Mongo.generatedId env))
            /\ documents (serve env srv (request POST ["api"; "products"] q b)).1.2
               = <[Mongo.generatedId env :=
                     <["_id" := VOid (Mongo.generatedId env)]>
                       (<["name" := n]>
                          (<["price" := VNum p]> (<["category" := c]> ∅)))]>
                   (documents srv))
        /\ (Mongo.storeUp env = false
            \/ is_Some (documents srv !! Mongo.generatedId env) ->
            (serve env srv (request POST ["api"; "products"] q b)).1
            = (Json 500 (BError "Server error"), srv))).
Proof.
  intros Hh. split; [|split; [|split]].
  - intros H. apply serve_Ret. rewrite (app_ready _ _ _ _ _ _ Hh).
    by apply create_product_missing.
  - intros Hn Hp Hc Hnum Hnan. apply serve_Ret. rewrite (app_ready _ _ _ _ _ _ Hh).
    by apply (create_product_nan _ p).
  - intros Hn Hp Hc Hnum. apply serve_Ret. rewrite (app_ready _ _ _ _ _ _ Hh).
    by apply create_product_throws.
  - intros n c Hn Tn Hp Hc Tc Hnum Hnan.
    destruct (create_product_insert _ _ _ _ Hn Tn Hp Hc Tc Hnum Hnan)
      as (k & Hk & Hrej & Hres).
    assert (app srv (request POST ["api"; "products"] q b) = Call _ k) as Happ
      by (rewrite (app_ready _ _ _ _ _ _ Hh); exact Hk).
    split; [|split].
    + rewrite (serve_Call env srv _ _ _ k Happ).
      destruct (Mongo.exec _ env (documents srv)) as [[r|] c'].
      * rewrite Hres. reflexivity.
      * rewrite Hrej. reflexivity.
    + intros Hup Hfree.
      erewrite serve_one_call;
        [|exact Happ|rewrite exec_up by done; rewrite Hfree; reflexivity
         |exact (Hres {| Mongo.insertedId := Mongo.generatedId env |})].
      by split.
    + intros Hbad.
      erewrite serve_one_call; [|exact Happ| |exact Hrej].
      * simpl. by rewrite server_eta.
      * destruct Hbad as [Hdown|[d Hd]].
        -- by rewrite exec_down.
        -- unfold Mongo.exec. destruct (Mongo.storeUp env); [|done]. simpl.
           by rewrite Hd.
Qed.

Lemma create_validation_witness :
  serve (env_up 9%N) ready_server
    (request POST ["api"; "products"] ∅
       (<["name" := VStr EmptyString]> (<["price" := VNum (of_Z 3)]>
          (<["category" := VStr "office"]> ∅))))
  = (Json 400 (BError "Missing required fields: name, price, category"),
     ready_server, [])
  /\ serve (env_up 9%N) ready_server
       (request POST ["api"; "products"] ∅
          (<["name" := VStr "ink"]> (<["price" := VStr "abc"]>
             (<["category" := VStr "office"]> ∅))))
     = (Json 400 (BError "price must be a number"), ready_server, [])
  /\ (serve (env_up 9%N) ready_server
        (request POST ["api"; "products"] ∅
           (<["name" := VStr "ink"]> (<["price" := VStr "3"]>
              (<["category" := VStr "office"]> ∅))))).1.1
     = Json 201 (BCreated "Product created" 9%N).
Proof.
  split; [|split].
  - apply (proj1 (create_validation (env_up 9%N) ready_server shop ∅ _ NaN
                    eq_refl)).
    left. vm_compute. reflexivity.
  - apply (proj1 (proj2 (create_validation (env_up 9%N) ready_server shop ∅ _
                           NaN eq_refl)));
      [vm_compute; reflexivity|vm_compute; discriminate|vm_compute; reflexivity..].
  - apply (proj2 (proj2 (proj2 (create_validation (env_up 9%N) ready_server shop
                                  ∅ _ (of_Z 3) eq_refl)))
             (VStr "ink") (VStr "office"));
      [vm_compute; reflexivity|vm_compute; reflexivity|vm_compute; discriminate
      |vm_compute; reflexivity..].
Defined.

(** ** C4 *)

Lemma exec_keeps_complete {X} (e : Mongo.storeE X) env c :
  keeps_complete e -> all_complete c -> all_complete (Mongo.exec e env c).2.
Proof.
  intros He Hc.
  destruct (Mongo.storeUp env) eqn:Hup;
    [rewrite exec_up by done|by rewrite exec_down].
  destruct e as [f o|id|d|id u|id]; try done.
  - destruct (c !! Mongo.generatedId env) eqn:E; [done|].
    cbn [snd]. 
    intros id d' Hd'. destruct (decide (Mongo.generatedId env = id)) as [<-|Hne].
    + rewrite lookup_insert_eq in Hd'. injection Hd' as <-.
      destruct He as (Hn & Hcat & x & Hx & Hnan).
      repeat split.
      * by rewrite lookup_insert_eq.
      * by rewrite lookup_insert_ne.
      * by rewrite lookup_insert_ne.
      * exists x. by rewrite lookup_insert_ne.
    + rewrite lookup_insert_ne in Hd' by done. by apply (Hc id).
  - destruct (c !! id) as [d|] eqn:E; [|done]. cbn [snd].
    intros id' d' Hd'. destruct (decide (id = id')) as [->|Hne].
    + rewrite lookup_insert_eq in Hd'. injection Hd' as <-.
      destruct (Hc _ _ E) as (Hid & Hn & Hcat & x & Hx & Hnan).
      assert (forall key, is_Some (d !! key) ->
                          is_Some (Mongo.apply_set u d !! key)) as Hkeep.
      { intros key Hk. rewrite lookup_apply_set. by destruct (u !! key). }
      repeat split; [by apply Hkeep..|].
      rewrite lookup_apply_set. destruct (u !! "price") as [v|] eqn:Ev.
      * destruct (He v Ev) as (y & -> & Hy). by exists y.
      * by exists x.
    + rewrite lookup_insert_ne in Hd' by done. by apply (Hc id').
  - destruct (c !! id) eqn:E; [|done]. cbn [snd].
    intros id' d' Hd'. apply lookup_delete_Some in Hd' as [_ Hd'].
    by apply (Hc id').
Qed.

Lemma run_keeps_complete {A} (p : Prog A) env c :
  issues (@keeps_complete) p -> all_complete c ->
  all_complete (run p env c).1.2.
Proof.
  intros H. revert c. induction H as [a| |X e k He _ IH]; intros c Hc; [done..|].
  simpl. pose proof (exec_keeps_complete e env c He Hc) as Hc'.
  destruct (Mongo.exec e env c) as [r c']. simpl in Hc'.
  specialize (IH r c' Hc').
  by destruct (run (k r) env c') as [[a c''] t].
Qed.

Lemma route_keeps_complete m p q b :
  issues (@keeps_complete) (route m p q b).
Proof.
  unfold route.
  destruct m, (match_path p) as [| |id|]; try (by constructor).
  - pose proof (list_products_plan q) as H.
    destruct (list_plan q) as [r|[f o]]; [rewrite H; constructor|].
    destruct H as (k & -> & Hrej & Hres). constructor; [done|].
    intros [l|]; [rewrite Hres|rewrite Hrej]; constructor.
  - destruct (Mongo.isValid id) eqn:Hv;
      [|rewrite get_product_invalid by done; constructor].
    destruct (isValid_newObjectId _ Hv) as [oid Ho].
    destruct (get_product_valid _ _ Ho) as (k & -> & Hrej & Hnone & Hsome).
    constructor; [done|].
    intros [[d|]|]; [rewrite Hsome|rewrite Hnone|rewrite Hrej]; constructor.
  - destruct (create_cases b)
      as [H|[(Hn & Hp & Hc & Hnum)|[(pn & Hn & Hp & Hc & Hnum & Hnan)
         |(n & c & pn & Hn & Tn & Hp & Hc & Tc & Hnum & Hnan)]]].
    + rewrite create_product_missing by done. constructor.
    + rewrite create_product_throws by done. constructor.
    + rewrite (create_product_nan _ pn) by done. constructor.
    + destruct (create_product_insert _ _ _ _ Hn Tn Hp Hc Tc Hnum Hnan)
        as (k & -> & Hrej & Hres).
      constructor.
      * simpl. repeat split; [by simplify_map_eq..|].
        eexists. split; [by simplify_map_eq|done].
      * intros [r|]; [rewrite Hres|rewrite Hrej]; constructor.
  - destruct (Mongo.isValid id) eqn:Hv;
      [|rewrite update_product_invalid by done; constructor].
    destruct (isValid_newObjectId _ Hv) as [oid Ho].
    destruct (update_cases b)
      as [(Hn & Hp & Hc)|[(pr & Hp & Hnum)|[(pr & pn & Hp & Hnum & Hnan)
         |(pn & Hsome & Hp)]]].
    + rewrite update_product_empty by done. constructor.
    + rewrite (update_product_throws _ _ _ Hv Hp Hnum). constructor.
    + rewrite (update_product_nan _ _ _ _ Hv Hp Hnum Hnan). constructor.
    + destruct (update_of_ok (b !! "name") _ (b !! "category") pn Hp)
        as (u & Hu & _ & _ & Hupr & _).
      destruct (update_product_valid _ _ _ _ Ho Hsome Hu) as (k & -> & Hrej & Hres).
      constructor.
      * simpl. intros v Hv'. rewrite Hupr in Hv'.
        destruct (b !! "price") as [pr|] eqn:Epr; [|done].
        injection Hv' as <-. eexists. split; [done|].
        by destruct Hp as [|[_ ?]].
      * intros [r|]; [rewrite Hres|rewrite Hrej]; [|constructor].
        destruct (Mongo.value r); constructor.
  - destruct (Mongo.isValid id) eqn:Hv;
      [|rewrite delete_product_invalid by done; constructor].
    destruct (isValid_newObjectId _ Hv) as [oid Ho].
    destruct (delete_product_valid _ _ Ho) as (k & -> & Hrej & Hres).
    constructor; [done|].
    intros [r|]; [rewrite Hres|rewrite Hrej]; [|constructor].
    destruct (_ =? _)%N; constructor.
Qed.

(** C4 (as stated, refuted).  A create with price [-1] is accepted and
    stores a negative price; an update with name [""] is accepted and
    stores an empty name; an update with name and category [null] is
    accepted and stores [null] for both.  The validators test the price
    for NaN only, and the update validator tests name and category for
    [undefined] only. *)
Lemma negative_price_empty_name_stored :
  (serve (env_up 9%N) ready_server
     (request POST ["api"; "products"] ∅
        (<["name" := VStr "ink"]> (<["price" := VNum (of_Z (-1))]>
           (<["category" := VStr "office"]> ∅))))).1.1
  = Json 201 (BCreated "Product created" 9%N)
  /\ (documents
        (serve (env_up 9%N) ready_server
           (request POST ["api"; "products"] ∅
              (<["name" := VStr "ink"]> (<["price" := VNum (of_Z (-1))]>
                 (<["category" := VStr "office"]> ∅))))).1.2 !! 9%N)
     ≫= (fun d => d !! "price") = Some (VNum (of_Z (-1)))
  /\ geb (of_Z (-1)) pos_zero = false
  /\ (serve (env_up 9%N) ready_server
        (request PUT ["api"; "products"; id1] ∅
           {["name" := VStr EmptyString]})).1.1
     = Json 200 (BUpdated "Product updated" (<["name" := VStr EmptyString]> pen))
  /\ (documents
        (serve (env_up 9%N) ready_server
           (request PUT ["api"; "products"; id1] ∅
              {["name" := VStr EmptyString]})).1.2 !! 1%N)
     ≫= (fun d => d !! "name") = Some (VStr EmptyString)
  /\ (serve (env_up 9%N) ready_server
        (request PUT ["api"; "products"; id1] ∅
           (<["name" := VNull]> {["category" := VNull]}))).1.1
     = Json 200 (BUpdated "Product updated"
                   (<["name" := VNull]> (<["category" := VNull]> pen)))
  /\ (documents
        (serve (env_up 9%N) ready_server
           (request PUT ["api"; "products"; id1] ∅
              (<["name" := VNull]> {["category" := VNull]}))).1.2 !! 1%N)
     ≫= (fun d => d !! "name") = Some VNull
  /\ (documents
        (serve (env_up 9%N) ready_server
           (request PUT ["api"; "products"; id1] ∅
              (<["name" := VNull]> {["category" := VNull]}))).1.2 !! 1%N)
     ≫= (fun d => d !! "category") = Some VNull.
Proof. repeat split; vm_compute; reflexivity. Qed.

(** C4 (amended).  If every stored product has its four fields ([_id],
    [name], [price], [category]: the keys are there, [name] and [category]
    holding any JSON value, [null] and the empty string included) with a
    price that is a Number other than NaN, then so has every stored product
    after any request is served, the accepted creates and partial updates
    among them; no more than that is kept, since an accepted update may
    store [null] or an empty string as name or category, and any create or
    update a negative price.  A product stored by an accepted create has
    the name and the category of the body, both truthy, and
    [Number(price)], which is not NaN, as its price. *)
Theorem complete_preserved (env : Mongo.Env) (srv : Server) (req : Request) :
  all_complete (documents srv) ->
  all_complete (documents (serve env srv req).1.2)
  /\ (forall q b id,
        req = request POST ["api"; "products"] q b ->
        (serve env srv req).1.1 = Json 201 (BCreated "Product created" id) ->
        exists n c p,
          b !! "name" = Some n /\ truthy (Some n) = true
          /\ b !! "category" = Some c /\ truthy (Some c) = true
          /\ Number (b !! "price") = Some p /\ isNaN p = false
          /\ documents (serve env srv req).1.2 !! id
             = Some (<["_id" := VOid id]>
                       (<["name" := n]>
                          (<["price" := VNum p]> (<["category" := c]> ∅))))).
Proof.
  intros Hpop. split.
  - unfold serve.
    assert (issues (@keeps_complete) (app srv req)) as Hissues.
    { unfold app. destruct (body req); [|constructor].
      destruct (productsCollection srv); [|constructor].
      apply route_keeps_complete. }
    pose proof (run_keeps_complete _ env _ Hissues Hpop) as H.
    by destruct (run (app srv req) env (documents srv)) as [[a c] t].
  - intros q b id -> Hresp.
    destruct (productsCollection srv) as [h|] eqn:Hh.
    2:{ rewrite (serve_Ret env srv _ not_ready) in Hresp; [done|].
        unfold app. simpl. by rewrite Hh. }
    destruct (create_cases b)
      as [H|[(Hn & Hp & Hc & Hnum)|[(pn & Hn & Hp & Hc & Hnum & Hnan)
         |(n & c & pn & Hn & Tn & Hp & Hc & Tc & Hnum & Hnan)]]].
    + rewrite (serve_Ret env srv _ missing_fields) in Hresp; [done|].
      rewrite (app_ready _ _ _ _ _ _ Hh). by apply create_product_missing.
    + rewrite (serve_Ret env srv _ server_error) in Hresp; [done|].
      rewrite (app_ready _ _ _ _ _ _ Hh). by apply create_product_throws.
    + rewrite (serve_Ret env srv _ price_not_number) in Hresp; [done|].
      rewrite (app_ready _ _ _ _ _ _ Hh). by apply (create_product_nan _ pn).
    + exists n, c, pn. repeat split; [done..|].
      destruct (create_product_insert _ _ _ _ Hn Tn Hp Hc Tc Hnum Hnan)
        as (k & Hk & Hrej & Hres).
      assert (app srv (request POST ["api"; "products"] q b) = Call _ k) as Happ
        by (rewrite (app_ready _ _ _ _ _ _ Hh); exact Hk).
      rewrite (serve_Call env srv _ _ _ k Happ) in Hresp |- *.
      unfold Mongo.exec in *. destruct (Mongo.storeUp env); simpl in *.
      * destruct (documents srv !! Mongo.generatedId env) eqn:E; simpl in *.
        -- by rewrite Hrej in Hresp.
        -- rewrite Hres in Hresp |- *. simpl in *.
           injection Hresp as <-. by rewrite lookup_insert_eq.
      * by rewrite Hrej in Hresp.
Qed.

Lemma complete_preserved_witness :
  all_complete
    (documents
       (serve (env_up 9%N) ready_server
          (request PUT ["api"; "products"; id1] ∅
             {["price" := VStr "-2.5"]})).1.2).
Proof.
  apply (complete_preserved (env_up 9%N) ready_server).
  intros id d Hd.
  unfold ready_server, three_products in Hd. simpl in Hd.
  destruct (decide (id = 1%N)) as [->|H1];
    [rewrite lookup_insert_eq in Hd|rewrite lookup_insert_ne in Hd by done;
     destruct (decide (id = 2%N)) as [->|H2];
       [rewrite lookup_insert_eq in Hd|rewrite lookup_insert_ne in Hd by done;
        destruct (decide (id = 3%N)) as [->|H3];
          [rewrite lookup_insert_eq in Hd
          |rewrite lookup_insert_ne, lookup_empty in Hd by done; discriminate]]];
    injection Hd as <-;
    (repeat split; [vm_compute; eauto..|]);
    eexists; split; vm_compute; reflexivity.
Defined.

(* ===================================================================== *)
(** * Further properties of the handlers *)
(* ===================================================================== *)

(** ** The shape of every route *)

Ltac status :=
  simpl in *; rewrite ?elem_of_cons, ?elem_of_nil in *; lia.

Lemma list_plan_inl_status q r :
  list_plan q = inl r -> json_with [400; 500]%nat r.
Proof.
  unfold list_plan.
  destruct (with_minPrice _ _) as [f|r1|] eqn:E1.
  - destruct (with_sort _ _) as [o|r2|] eqn:E2.
    + destruct (truthy (q !! "fields")); [|done].
      destruct (q !! "fields") as [[]|]; intros [= <-]; status.
    + intros [= <-]. rewrite (with_sort_Return _ _ _ E2). status.
    + intros [= <-]. status.
  - intros [= <-]. rewrite (with_minPrice_Return _ _ _ E1). status.
  - intros [= <-]. status.
Qed.

Lemma route_awaits_once m p q b : awaits_once (route m p q b).
Proof.
  unfold route.
  destruct m, (match_path p) as [| |id|]; try status.
  - (* GET /api/products *)
    pose proof (list_products_plan q) as H.
    destruct (list_plan q) as [r|[f o]] eqn:E.
    + rewrite H. apply list_plan_inl_status in E.
      destruct r; [|done]. status.
    + destruct H as (k & -> & Hrej & Hres). split; [done|].
      intros l. eexists. split; [apply Hres|status].
  - (* GET /api/products/:id *)
    destruct (Mongo.isValid id) eqn:Hv;
      [|rewrite get_product_invalid by done; status].
    destruct (isValid_newObjectId _ Hv) as [oid Ho].
    destruct (get_product_valid _ _ Ho) as (k & -> & Hrej & Hnone & Hsome).
    split; [done|].
    intros [d|]; eexists; (split; [by eauto|]); status.
  - (* POST /api/products *)
    destruct (create_cases b)
      as [H|[(Hn & Hp & Hc & Hnum)|[(pn & Hn & Hp & Hc & Hnum & Hnan)
         |(n & c & pn & Hn & Tn & Hp & Hc & Tc & Hnum & Hnan)]]].
    + rewrite create_product_missing by done. status.
    + rewrite create_product_throws by done. status.
    + rewrite (create_product_nan _ pn) by done. status.
    + destruct (create_product_insert _ _ _ _ Hn Tn Hp Hc Tc Hnum Hnan)
        as (k & -> & Hrej & Hres).
      split; [done|]. intros r. eexists. split; [apply Hres|status].
  - (* PUT /api/products/:id *)
    destruct (Mongo.isValid id) eqn:Hv;
      [|rewrite update_product_invalid by done; status].
    destruct (isValid_newObjectId _ Hv) as [oid Ho].
    destruct (update_cases b)
      as [(Hn & Hp & Hc)|[(pr & Hp & Hnum)|[(pr & pn & Hp & Hnum & Hnan)
         |(pn & Hsome & Hp)]]].
    + rewrite update_product_empty by done. status.
    + rewrite (update_product_throws _ _ _ Hv Hp Hnum). status.
    + rewrite (update_product_nan _ _ _ _ Hv Hp Hnum Hnan). status.
    + destruct (update_of_ok (b !! "name") _ (b !! "category") pn Hp)
        as (u & Hu & _).
      destruct (update_product_valid _ _ _ _ Ho Hsome Hu) as (k & -> & Hrej & Hres).
      split; [done|]. intros r. eexists. split; [apply Hres|].
      destruct (Mongo.value r); status.
  - (* DELETE /api/products/:id *)
    destruct (Mongo.isValid id) eqn:Hv;
      [|rewrite delete_product_invalid by done; status].
    destruct (isValid_newObjectId _ Hv) as [oid Ho].
    destruct (delete_product_valid _ _ Ho) as (k & -> & Hrej & Hres).
    split; [done|]. intros r. eexists. split; [apply Hres|].
    destruct (_ =? _)%N; status.
Qed.

Lemma app_awaits_once srv req b :
  body req = JsonBody b -> awaits_once (app srv req).
Proof.
  intros Hb. unfold app. rewrite Hb.
  destruct (productsCollection srv); [apply route_awaits_once|status].
Qed.

(** What [serve] makes of a program of that shape. *)
Lemma serve_awaits_once env srv req :
  awaits_once (app srv req) ->
  (exists r, app srv req = Ret r
             /\ json_with [200; 400; 404; 500; 503]%nat r
             /\ serve env srv req = (r, srv, []))
  \/ (exists X (e : Mongo.storeE X) k,
        app srv req = Call e k
        /\ (serve env srv req).2 = [existT _ e]
        /\ (serve env srv req).1.2
           = {| productsCollection := productsCollection srv;
                documents := (Mongo.exec e env (documents srv)).2 |}
        /\ match (Mongo.exec e env (documents srv)).1 with
           | Mongo.Rejected => (serve env srv req).1.1 = server_error
           | Mongo.Resolved x =>
               k (Mongo.Resolved x) = Ret (serve env srv req).1.1
               /\ json_with [200; 201; 404]%nat (serve env srv req).1.1
           end).
Proof.
  intros H. destruct (app srv req) as [r| |X e k] eqn:Happ; [|done|].
  - left. exists r. split; [done|]. split; [done|]. by apply serve_Ret.
  - right. exists X, e, k. split; [done|]. destruct H as [Hrej Hres].
    rewrite (serve_Call _ _ _ _ _ _ Happ).
    destruct (Mongo.exec e env (documents srv)) as [[x|] c'].
    + destruct (Hres x) as (a & Ha & Hs). rewrite Ha. by simpl.
    + rewrite Hrej. by simpl.
Qed.

(** The body parser's error is answered at once. *)
Lemma serve_body_error env srv req st :
  body req = BodyError st -> serve env srv req = (ErrorPage st, srv, []).
Proof. intros Hb. apply serve_Ret. unfold app. by rewrite Hb. Qed.

(** X1.  A request issues at most one collection operation, whatever the
    route, the body and the state of the collection: no handler retries or
    follows one operation by another (lines 51-174). *)
Theorem at_most_one_operation (env : Mongo.Env) (srv : Server) (req : Request) :
  (length (serve env srv req).2 <= 1)%nat.
Proof.
  destruct (body req) as [b|st] eqn:Hb.
  - destruct (serve_awaits_once env srv req (app_awaits_once srv req b Hb))
      as [(r & _ & _ & ->)|(X & e & k & _ & -> & _)]; simpl; lia.
  - rewrite (serve_body_error _ _ _ _ Hb). simpl. lia.
Qed.

(** X2.  A response of status 400 or 503 comes before any collection
    operation and leaves the server as it was: on every route the checks
    run first (lines 38-43, 60-70, 90, 106-111, 128-144, 164). *)
Theorem rejected_before_store (env : Mongo.Env) (srv : Server) (req : Request) :
  status_of (serve env srv req).1.1 = 400%nat
  \/ status_of (serve env srv req).1.1 = 503%nat ->
  (serve env srv req).2 = [] /\ (serve env srv req).1.2 = srv.
Proof.
  intros Hs. destruct (body req) as [b|st] eqn:Hb.
  - destruct (serve_awaits_once env srv req (app_awaits_once srv req b Hb))
      as [(r & _ & _ & E)|(X & e & k & _ & _ & _ & H)]; [by rewrite E|].
    exfalso. destruct (Mongo.exec e env (documents srv)).1 as [x|].
    + destruct H as [_ H]. destruct (serve env srv req).1.1 as [s bd|]; [|done].
      status.
    + rewrite H in Hs. status.
  - by rewrite (serve_body_error _ _ _ _ Hb).
Qed.

Lemma rejected_before_store_witness :
  (serve (env_up 9%N) ready_server
     (request GET ["api"; "products"] {["sort" := VStr "name"]} ∅)).2 = []
  /\ (serve (env_up 9%N) ready_server
        (request GET ["api"; "products"] {["sort" := VStr "name"]} ∅)).1.2
     = ready_server.
Proof.
  apply rejected_before_store. left. vm_compute. reflexivity.
Defined.

(** X3.  When the collection cannot be reached, no document changes, and a
    request that got as far as the collection is answered 500
    [{error: "Server error"}], on every route (the [catch] blocks, lines
    81-84, 96-99, 119-122, 155-158, 170-173). *)
Theorem unreachable_store_is_500 (env : Mongo.Env) (srv : Server) (req : Request) :
  Mongo.storeUp env = false ->
  (serve env srv req).1.2 = srv
  /\ ((serve env srv req).2 = []
      \/ (serve env srv req).1.1 = Json 500 (BError "Server error")).
Proof.
  intros Hdown. destruct (body req) as [b|st] eqn:Hb.
  - destruct (serve_awaits_once env srv req (app_awaits_once srv req b Hb))
      as [(r & _ & _ & E)|(X & e & k & _ & _ & Hsrv & H)].
    + rewrite E. by split; [|left].
    + rewrite (exec_down e env _ Hdown) in Hsrv, H. simpl in *.
      split; [by rewrite Hsrv, server_eta|by right].
  - rewrite (serve_body_error _ _ _ _ Hb). by split; [|left].
Qed.

Lemma unreachable_store_is_500_witness :
  (serve {| Mongo.storeUp := false; Mongo.generatedId := 9%N |} ready_server
     (request DELETE ["api"; "products"; id1] ∅ ∅)).1.2 = ready_server
  /\ ((serve {| Mongo.storeUp := false; Mongo.generatedId := 9%N |} ready_server
         (request DELETE ["api"; "products"; id1] ∅ ∅)).2 = []
      \/ (serve {| Mongo.storeUp := false; Mongo.generatedId := 9%N |}
            ready_server (request DELETE ["api"; "products"; id1] ∅ ∅)).1.1
         = Json 500 (BError "Server error")).
Proof. apply unreachable_store_is_500. reflexivity. Defined.

(** Every response of a route is JSON: each handler catches what its body
    throws. *)
Lemma serve_json (env : Mongo.Env) (srv : Server) (req : Request)
    (b : gmap string jsval) :
  body req = JsonBody b ->
  json_with [200; 201; 400; 404; 500; 503]%nat (serve env srv req).1.1.
Proof.
  intros Hb.
  destruct (serve_awaits_once env srv req (app_awaits_once srv req b Hb))
    as [(r & _ & Hr & E)|(X & e & k & _ & _ & _ & H)].
  - rewrite E. destruct r; [|done]. status.
  - destruct (Mongo.exec e env (documents srv)).1 as [x|].
    + destruct H as [_ H]. destruct (serve env srv req).1.1; [|done]. status.
    + rewrite H. status.
Qed.

Lemma dispatch_json env srv inc p b :
  parsed inc = JsonBody b ->
  json_with [200; 201; 400; 404; 500; 503]%nat (dispatch env srv inc p).1.1.
Proof.
  intros Hb. unfold dispatch.
  destruct (verb inc) as [m| |]; [by apply (serve_json _ _ _ b)..|status].
Qed.

(** X4.  A request whose body passed [express.json()] is answered through
    [res.json], with status 200, 201, 400, 404, 500 or 503 (each handler
    catches what its body throws), with one exception: once the handle is
    assigned, a path /api/products/<id> whose id cannot be percent-decoded
    gets the default error page with status 400, whatever the method; the
    decoding happens outside every [try] and the source registers no error
    handler. *)
Theorem json_unless_undecodable (env : Mongo.Env) (srv : Server)
    (inc : Incoming) (b : gmap string jsval) :
  parsed inc = JsonBody b ->
  match (handle env srv inc).1.1 with
  | Json s _ => s ∈ [200; 201; 400; 404; 500; 503]%nat
  | ErrorPage s =>
      s = 400%nat /\ is_Some (productsCollection srv)
      /\ exists raw, match_path (url inc) = ProductById raw
                     /\ decodeURIComponent raw = URIError
  end
  /\ (forall raw,
        is_Some (productsCollection srv) ->
        match_path (url inc) = ProductById raw ->
        decodeURIComponent raw = URIError ->
        handle env srv inc = (ErrorPage 400, srv, [])).
Proof.
  intros Hb. split.
  - assert (forall p,
              match (dispatch env srv inc p).1.1 with
              | Json s _ => s ∈ [200; 201; 400; 404; 500; 503]%nat
              | ErrorPage s =>
                  s = 400%nat /\ is_Some (productsCollection srv)
                  /\ exists raw, match_path (url inc) = ProductById raw
                                 /\ decodeURIComponent raw = URIError
              end) as Hd.
    { intros p. pose proof (dispatch_json env srv inc p b Hb) as H.
      by destruct (dispatch env srv inc p).1.1. }
    unfold handle. rewrite Hb.
    destruct (productsCollection srv) as [h|] eqn:Hh; [|status].
    destruct (match_path (url inc)) as [| |raw|] eqn:Hm; try apply Hd.
    destruct (decodeURIComponent raw) eqn:Hraw; [apply Hd| |].
    + destruct (verb inc) as [[]| |]; status.
    + simpl. split; [done|]. split; [done|]. by exists raw.
  - intros raw [h Hh] Hm Hraw. unfold handle. by rewrite Hb, Hh, Hm, Hraw.
Qed.

Lemma json_unless_undecodable_witness :
  handle (env_up 9%N) ready_server
    (incoming (Verb_of GET) ["api"; "products"; "%E0%A4%A"] ∅ ∅)
  = (ErrorPage 400, ready_server, []).
Proof.
  apply (proj2 (json_unless_undecodable (env_up 9%N) ready_server
                  (incoming (Verb_of GET) ["api"; "products"; "%E0%A4%A"] ∅ ∅)
                  ∅ eq_refl) "%E0%A4%A");
    [by eexists|reflexivity|reflexivity].
Defined.

(** ** Which operation a route issues *)

Lemma route_operation m p q b :
  match route m p q b with
  | Call e _ => operation_of m e
  | _ => True
  end.
Proof.
  unfold route.
  destruct m, (match_path p) as [| |id|]; try exact I.
  - pose proof (list_products_plan q) as H.
    destruct (list_plan q) as [r|[f o]]; [by rewrite H|].
    by destruct H as (k & -> & _).
  - destruct (Mongo.isValid id) eqn:Hv; [|by rewrite get_product_invalid].
    destruct (isValid_newObjectId _ Hv) as [oid Ho].
    by destruct (get_product_valid _ _ Ho) as (k & -> & _).
  - destruct (create_cases b)
      as [H|[(Hn & Hp & Hc & Hnum)|[(pn & Hn & Hp & Hc & Hnum & Hnan)
         |(n & c & pn & Hn & Tn & Hp & Hc & Tc & Hnum & Hnan)]]].
    + by rewrite create_product_missing.
    + by rewrite create_product_throws.
    + by rewrite (create_product_nan _ pn).
    + by destruct (create_product_insert _ _ _ _ Hn Tn Hp Hc Tc Hnum Hnan)
        as (k & -> & _).
  - destruct (Mongo.isValid id) eqn:Hv; [|by rewrite update_product_invalid].
    destruct (isValid_newObjectId _ Hv) as [oid Ho].
    destruct (update_cases b)
      as [(Hn & Hp & Hc)|[(pr & Hp & Hnum)|[(pr & pn & Hp & Hnum & Hnan)
         |(pn & Hsome & Hp)]]].
    + by rewrite update_product_empty.
    + by rewrite (update_product_throws _ _ _ Hv Hp Hnum).
    + by rewrite (update_product_nan _ _ _ _ Hv Hp Hnum Hnan).
    + destruct (update_of_ok (b !! "name") _ (b !! "category") pn Hp)
        as (u & Hu & _).
      by destruct (update_product_valid _ _ _ _ Ho Hsome Hu) as (k & -> & _).
  - destruct (Mongo.isValid id) eqn:Hv; [|by rewrite delete_product_invalid].
    destruct (isValid_newObjectId _ Hv) as [oid Ho].
    by destruct (delete_product_valid _ _ Ho) as (k & -> & _).
Qed.

Lemma app_operation srv req :
  match app srv req with
  | Call e _ => operation_of (method req) e
  | _ => True
  end.
Proof.
  unfold app. destruct (body req); [|done].
  destruct (productsCollection srv); [apply route_operation|done].
Qed.

(** X5.  The operation a request issues is the one of its method: a GET
    only reads ([find], [findOne]), a POST only inserts, a PUT only updates
    one document by [_id], a DELETE only deletes one document by [_id]. *)
Theorem operation_by_method (env : Mongo.Env) (srv : Server) (req : Request)
    (X : Type) (e : Mongo.storeE X) :
  existT X e ∈ (serve env srv req).2 -> operation_of (method req) e.
Proof.
  intros Hin. pose proof (app_operation srv req) as Hop.
  destruct (body req) as [b|st] eqn:Hb.
  - destruct (serve_awaits_once env srv req (app_awaits_once srv req b Hb))
      as [(r & _ & _ & E)|(X' & e' & k & Happ & Ht & _)].
    + rewrite E in Hin. by apply elem_of_nil in Hin.
    + rewrite Ht in Hin. apply list_elem_of_singleton in Hin.
      rewrite Happ in Hop.
      change (@operation_of (method req) (projT1 (existT X e))
                (projT2 (existT X e))).
      by rewrite Hin.
  - rewrite (serve_body_error _ _ _ _ Hb) in Hin. by apply elem_of_nil in Hin.
Qed.

Lemma operation_by_method_witness :
  operation_of DELETE (Mongo.DeleteOne 1%N).
Proof.
  apply (operation_by_method (env_up 9%N) ready_server
           (request DELETE ["api"; "products"; id1] ∅ ∅)).
  vm_compute. apply list_elem_of_here.
Defined.

(** X6.  A GET request never changes the server: whatever the path, the
    query and the outcome, the documents after it are the documents before
    it (lines 45-100). *)
Theorem get_changes_nothing (env : Mongo.Env) (srv : Server) (req : Request) :
  method req = GET -> (serve env srv req).1.2 = srv.
Proof.
  intros Hm. pose proof (app_operation srv req) as Hop.
  destruct (body req) as [b|st] eqn:Hb.
  - destruct (serve_awaits_once env srv req (app_awaits_once srv req b Hb))
      as [(r & _ & _ & E)|(X' & e' & k & Happ & _ & Hsrv & _)];
      [by rewrite E|].
    rewrite Hsrv. rewrite Happ, Hm in Hop.
    unfold Mongo.exec. destruct (negb (Mongo.storeUp env)); simpl;
      [apply server_eta|].
    destruct e'; try done; apply server_eta.
  - by rewrite (serve_body_error _ _ _ _ Hb).
Qed.

Lemma get_changes_nothing_witness :
  (serve (env_up 9%N) ready_server
     (request GET ["api"; "products"] {["minPrice" := VStr "7"]} ∅)).1.2
  = ready_server.
Proof. apply get_changes_nothing. reflexivity. Defined.

(** ** The fallback (lines 176-178) *)

Lemma serve_patch env srv h p q b :
  productsCollection srv = Some h ->
  serve env srv (request PATCH p q b) = (endpoint_not_found, srv, []).
Proof.
  intros Hh. apply serve_Ret. rewrite (app_ready _ _ _ _ _ _ Hh).
  unfold route. by destruct (match_path p).
Qed.

Lemma serve_post_by_id env srv h a c id q b :
  productsCollection srv = Some h ->
  serve env srv (request POST [a; c; id] q b) = (endpoint_not_found, srv, []).
Proof.
  intros Hh. apply serve_Ret. rewrite (app_ready _ _ _ _ _ _ Hh).
  unfold route, match_path. by destruct (_ && _).
Qed.

(** X7.  Once the handle is assigned, a method that no route is registered
    for gets 404 [{error: "API endpoint not found"}], not 405, and the
    collection is not called: PATCH and OPTIONS on any path whose [:id], if
    it has one, can be decoded; POST on /api/products/:id with such an id;
    PUT and DELETE on /api/products; and anything but GET and HEAD on the
    root.  HEAD on the root is served by the GET route, with status 200. *)
Theorem unmatched_method_is_404 (env : Mongo.Env) (srv : Server)
    (h : Collection) (q b : gmap string jsval) :
  productsCollection srv = Some h ->
  (forall v u,
     v = Verb_of PATCH \/ v = OPTIONS ->
     (forall raw, match_path u = ProductById raw ->
                  decodeURIComponent raw <> URIError) ->
     handle env srv (incoming v u q b)
     = (Json 404 (BError "API endpoint not found"), srv, []))
  /\ (forall raw,
        decodeURIComponent raw <> URIError ->
        handle env srv (incoming (Verb_of POST) ["api"; "products"; raw] q b)
        = (Json 404 (BError "API endpoint not found"), srv, []))
  /\ (forall m,
        m = PUT \/ m = DELETE ->
        handle env srv (incoming (Verb_of m) ["api"; "products"] q b)
        = (Json 404 (BError "API endpoint not found"), srv, []))
  /\ (forall v,
        v <> Verb_of GET -> v <> HEAD ->
        handle env srv (incoming v [] q b)
        = (Json 404 (BError "API endpoint not found"), srv, []))
  /\ handle env srv (incoming HEAD [] q b)
     = (Json 200 (BLinks ["/api/products"; "/api/products/:id"]), srv, []).
Proof.
  intros Hh. repeat split.
  - intros v u Hv Hraw. unfold handle. cbn [parsed url incoming]. rewrite Hh.
    assert (forall p, dispatch env srv (incoming v u q b) p
                      = (endpoint_not_found, srv, [])) as Hd.
    { intros p. destruct Hv as [-> | ->]; [|done].
      by apply (serve_patch _ _ h). }
    destruct (match_path u) as [| |raw|] eqn:Hm; try apply Hd.
    specialize (Hraw raw eq_refl).
    destruct (decodeURIComponent raw); [apply Hd| |done].
    by destruct Hv as [-> | ->].
  - intros raw Hraw. unfold handle, dispatch. cbn [parsed url verb search incoming]. rewrite Hh.
    unfold match_path.
    change (String.eqb (lower_string "api") "api") with true.
    change (String.eqb (lower_string "products") "products") with true.
    cbn [andb].
    destruct (negb (String.eqb raw EmptyString));
      [|by apply (serve_post_by_id _ _ h)].
    destruct (decodeURIComponent raw); [|done..].
    cbn [list_insert insert]. by apply (serve_post_by_id _ _ h).
  - intros m [-> | ->]; unfold handle, dispatch; cbn [parsed url verb search incoming]; rewrite Hh;
      apply serve_Ret; unfold app; cbn [body]; by rewrite Hh.
  - intros v Hg Hhead. unfold handle, dispatch. cbn [parsed url verb search incoming]. rewrite Hh.
    destruct v as [m| |]; [|done..].
    apply serve_Ret. unfold app. cbn [body]. rewrite Hh.
    by destruct m.
  - unfold handle, dispatch. cbn [parsed url verb search incoming]. rewrite Hh.
    apply serve_Ret. unfold app. cbn [body]. by rewrite Hh.
Qed.

Lemma unmatched_method_is_404_witness :
  handle (env_up 9%N) ready_server
    (incoming OPTIONS ["api"; "products"] ∅ ∅)
  = (Json 404 (BError "API endpoint not found"), ready_server, [])
  /\ handle (env_up 9%N) ready_server
       (incoming (Verb_of POST) ["api"; "products"; id1] ∅ ∅)
     = (Json 404 (BError "API endpoint not found"), ready_server, []).
Proof.
  destruct (unmatched_method_is_404 (env_up 9%N) ready_server shop ∅ ∅ eq_refl)
    as (H1 & H2 & _).
  split.
  - apply H1; [by right|]. intros raw Hm. discriminate Hm.
  - apply H2. discriminate.
Defined.

(** ** Requests without escapes *)

Lemma unescape_plain (l : list ascii) :
  "%"%char ∉ l -> unescape l = Some ((fun c => (false, code c)) <$> l).
Proof.
  induction l as [|c l IH]; [done|]. intros Hl.
  apply not_elem_of_cons in Hl as [Hc Hl]. cbn [unescape].
  destruct (Ascii.eqb_spec c "%") as [->|_]; [done|].
  by rewrite (IH Hl).
Qed.

Lemma utf8_plain (l : list ascii) :
  utf8 ((fun c => (false, code c)) <$> l) = Some (code <$> l).
Proof.
  induction l as [|c l IH]; [done|].
  rewrite fmap_cons. cbn [utf8]. by rewrite IH.
Qed.

Lemma decodeURIComponent_plain (s : string) :
  "%"%char ∉ list_ascii_of_string s -> decodeURIComponent s = Units s.
Proof.
  intros Hs. unfold decodeURIComponent.
  rewrite (unescape_plain _ Hs). simpl. rewrite utf8_plain.
  assert (forallb (fun c => (c <? 256)%N) (code <$> list_ascii_of_string s)
          = true) as ->.
  { apply forallb_forall. intros x Hx. apply list_elem_of_In in Hx.
    apply list_elem_of_fmap in Hx as (c & -> & _).
    apply N.ltb_lt, N_ascii_bounded. }
  f_equal. rewrite <- list_fmap_compose.
  rewrite <- (string_of_list_ascii_of_string s) at 2. f_equal.
  clear Hs. induction (list_ascii_of_string s) as [|c l IH]; [done|].
  rewrite fmap_cons. f_equal; [apply ascii_N_embedding|exact IH].
Qed.

Lemma match_path_by_id (u : list string) (raw : string) :
  match_path u = ProductById raw -> exists a c, u = [a; c; raw].
Proof.
  destruct u as [|a [|c [|id [|x u]]]]; simpl; try done.
  - by destruct (_ && _).
  - destruct (_ && _); [|done]. intros [= ->]. by eauto.
Qed.

(** X22.  What is proved of the routes holds of the requests as they
    arrive: a request whose [:id] segment holds no percent sign reaches the
    route of its method with the path unchanged, and a HEAD request the
    route of GET. *)
Theorem handle_without_escapes (env : Mongo.Env) (srv : Server) (m : Method)
    (u : list string) (q b : gmap string jsval) :
  (forall raw, match_path u = ProductById raw ->
               "%"%char ∉ list_ascii_of_string raw) ->
  handle env srv (incoming (Verb_of m) u q b) = serve env srv (request m u q b)
  /\ handle env srv (incoming HEAD u q b) = serve env srv (request GET u q b).
Proof.
  intros Hu.
  assert (forall v m',
            dispatch env srv (incoming v u q b) u
            = serve env srv (request m' u q b) ->
            handle env srv (incoming v u q b) = serve env srv (request m' u q b))
    as H.
  { intros v m' Hd. unfold handle. cbn [parsed url incoming].
    destruct (productsCollection srv) as [h|] eqn:Hh.
    - destruct (match_path u) as [| |raw|] eqn:Hm; try exact Hd.
      rewrite (decodeURIComponent_plain _ (Hu raw eq_refl)).
      destruct (match_path_by_id _ _ Hm) as (a & c & ->). exact Hd.
    - symmetry. apply serve_Ret. unfold app. cbn [body]. by rewrite Hh. }
  split; by apply H.
Qed.

Lemma handle_without_escapes_witness :
  handle (env_up 9%N) ready_server
    (incoming (Verb_of DELETE) ["api"; "products"; id1] ∅ ∅)
  = serve (env_up 9%N) ready_server (request DELETE ["api"; "products"; id1] ∅ ∅).
Proof.
  apply (handle_without_escapes (env_up 9%N) ready_server DELETE).
  intros raw [= <-]. vm_compute.
  repeat (apply not_elem_of_cons; split; [discriminate|]). apply not_elem_of_nil.
Defined.

(** X8.  A path of more than three segments, or one that does not start
    with [api], [products] (in any case), matches no route: the answer is
    404 [{error: "API endpoint not found"}] for every method. *)
Theorem unmatched_path_is_404 (env : Mongo.Env) (srv : Server)
    (h : Collection) (m : Method) (p : list string) (q b : gmap string jsval) :
  productsCollection srv = Some h ->
  p <> [] ->
  (3 < length p)%nat
  \/ lower_string <$> take 2 p <> ["api"; "products"] ->
  serve env srv (request m p q b)
  = (Json 404 (BError "API endpoint not found"), srv, []).
Proof.
  intros Hh Hne Hp. apply serve_Ret. rewrite (app_ready _ _ _ _ _ _ Hh).
  unfold route.
  assert (match_path p = Unmatched) as ->; [|by destruct m].
  unfold match_path.
  destruct p as [|a [|b' [|c [|d r]]]]; [done|done| | |done].
  - destruct Hp as [Hp|Hp]; [simpl in Hp; lia|]. simpl in Hp.
    destruct (String.eqb_spec (lower_string a) "api") as [Ea|]; [|done].
    destruct (String.eqb_spec (lower_string b') "products") as [Eb|]; [|done].
    by rewrite Ea, Eb in Hp.
  - destruct Hp as [Hp|Hp]; [simpl in Hp; lia|]. simpl in Hp.
    destruct (String.eqb_spec (lower_string a) "api") as [Ea|]; [|done].
    destruct (String.eqb_spec (lower_string b') "products") as [Eb|]; [|done].
    by rewrite Ea, Eb in Hp.
Qed.

Lemma unmatched_path_is_404_witness :
  serve (env_up 9%N) ready_server (request GET ["api"; "orders"] ∅ ∅)
  = (Json 404 (BError "API endpoint not found"), ready_server, []).
Proof.
  apply (unmatched_path_is_404 _ _ shop); [reflexivity|discriminate|].
  right. discriminate.
Defined.

(** ** ObjectIds and their hex strings *)

Lemma hex_val_hex_char (d : N) : (d < 16)%N -> hex_val (hex_char d) = Some d.
Proof.
  intros H.
  assert (d ∈ (N.of_nat <$> seq 0 16)) as Hd.
  { apply list_elem_of_fmap. exists (N.to_nat d). split; [lia|].
    apply list_elem_of_In, in_seq. lia. }
  simpl in Hd. repeat (apply elem_of_cons in Hd as [->|Hd]; [reflexivity|]).
  by apply elem_of_nil in Hd.
Qed.

Lemma hex_digits_app n x acc : hex_digits n x acc = hex_digits n x [] ++ acc.
Proof.
  revert x acc. induction n as [|n IH]; intros x acc; simpl; [done|].
  rewrite IH, (IH _ [_]). by rewrite <- app_assoc.
Qed.

Lemma hex_digits_length n x : length (hex_digits n x []) = n.
Proof.
  revert x. induction n as [|n IH]; intros x; simpl; [done|].
  rewrite hex_digits_app, length_app, IH. simpl. lia.
Qed.

Lemma hex_digits_hex n x : forallb (digit_in 16) (hex_digits n x []) = true.
Proof.
  revert x. induction n as [|n IH]; intros x; simpl; [done|].
  rewrite hex_digits_app, forallb_app, IH. simpl.
  unfold digit_in. rewrite hex_val_hex_char by (apply N.mod_lt; lia).
  rewrite andb_true_r. apply N.ltb_lt, N.mod_lt. lia.
Qed.

Lemma digits_val_snoc base l c :
  digits_val base (l ++ [c])
  = (digits_val base l * base + default 0 (hex_val c))%N.
Proof. unfold digits_val. by rewrite foldl_app. Qed.

Lemma digits_val_hex_digits n x :
  digits_val 16 (hex_digits n x []) = (x mod 16 ^ N.of_nat n)%N.
Proof.
  revert x. induction n as [|n IH]; intros x.
  - simpl. by rewrite N.mod_1_r.
  - cbn [hex_digits]. rewrite hex_digits_app, digits_val_snoc, IH.
    rewrite hex_val_hex_char by (apply N.mod_lt; lia). simpl.
    rewrite Nat2N.inj_succ, N.pow_succ_r'.
    rewrite N.Div0.mod_mul_r. lia.
Qed.

Lemma toHexString_valid (i : N) : Mongo.isValid (toHexString i) = true.
Proof.
  unfold Mongo.isValid, toHexString.
  rewrite list_ascii_of_string_of_list_ascii, hex_digits_length, hex_digits_hex.
  reflexivity.
Qed.

Lemma newObjectId_toHexString (i : N) :
  (i < 2 ^ 96)%N -> Mongo.newObjectId (toHexString i) = Some i.
Proof.
  intros Hi. unfold Mongo.newObjectId, toHexString.
  rewrite list_ascii_of_string_of_list_ascii, hex_digits_length, hex_digits_hex.
  rewrite digits_val_hex_digits. cbn [Nat.eqb andb]. f_equal.
  apply N.mod_small. by change (16 ^ N.of_nat 24)%N with (2 ^ 96)%N.
Qed.

(** ** Reading a product back *)

Lemma serve_handle env srv req :
  productsCollection (serve env srv req).1.2 = productsCollection srv.
Proof.
  unfold serve. by destruct (run (app srv req) env (documents srv)) as [[a c] t].
Qed.

Lemma app_same_handle srv srv' req :
  productsCollection srv' = productsCollection srv -> app srv' req = app srv req.
Proof. intros H. unfold app. by rewrite H. Qed.

Lemma serve_get_by_id env srv h id oid q b :
  productsCollection srv = Some h -> Mongo.storeUp env = true ->
  Mongo.newObjectId id = Some oid ->
  serve env srv (request GET ["api"; "products"; id] q b)
  = (match documents srv !! oid with
     | Some d => Json 200 (BProduct d)
     | None => not_found
     end, srv, [existT _ (Mongo.FindOne oid)]).
Proof.
  intros Hh Hup Ho.
  pose proof (isValid_nonempty _ (newObjectId_isValid _ _ Ho)) as Hid.
  destruct (get_product_valid _ _ Ho) as (k & Hk & _ & Hnone & Hsome).
  assert (app srv (request GET ["api"; "products"; id] q b) = Call _ k) as Happ
    by (rewrite (app_by_id _ _ _ _ _ _ Hh Hid); exact Hk).
  destruct (documents srv !! oid) as [d|] eqn:Hd.
  - erewrite serve_one_call;
      [|exact Happ|rewrite exec_up by done; unfold Mongo.findOne; by rewrite Hd
       |apply Hsome].
    simpl. by rewrite server_eta.
  - erewrite serve_one_call;
      [|exact Happ|rewrite exec_up by done; unfold Mongo.findOne; by rewrite Hd
       |apply Hnone].
    simpl. by rewrite server_eta.
Qed.

(** X9.  GET /api/products/:id with a valid identifier that names a stored
    document is answered 200 with exactly that document, by one [findOne],
    and changes nothing (lines 89-95). *)
Theorem get_existing (env : Mongo.Env) (srv : Server) (h : Collection)
    (id : string) (oid : Mongo.ObjectId) (d : Mongo.Doc)
    (q b : gmap string jsval) :
  productsCollection srv = Some h ->
  Mongo.storeUp env = true ->
  Mongo.newObjectId id = Some oid ->
  documents srv !! oid = Some d ->
  serve env srv (request GET ["api"; "products"; id] q b)
  = (Json 200 (BProduct d), srv, [existT _ (Mongo.FindOne oid)]).
Proof.
  intros Hh Hup Ho Hd. rewrite (serve_get_by_id _ _ _ _ _ _ _ Hh Hup Ho).
  by rewrite Hd.
Qed.

Lemma get_existing_witness :
  serve (env_up 9%N) ready_server (request GET ["api"; "products"; id1] ∅ ∅)
  = (Json 200 (BProduct pen), ready_server, [existT _ (Mongo.FindOne 1%N)]).
Proof.
  apply (get_existing _ _ shop); [reflexivity..|vm_compute; reflexivity].
Defined.

(** What an accepted create has stored. *)
Lemma create_accepted env srv q b msg id :
  (serve env srv (request POST ["api"; "products"] q b)).1.1
  = Json 201 (BCreated msg id) ->
  exists h n c p,
    productsCollection srv = Some h
    /\ b !! "name" = Some n /\ b !! "category" = Some c
    /\ Number (b !! "price") = Some p
    /\ documents (serve env srv (request POST ["api"; "products"] q b)).1.2
       = <[id := <["_id" := VOid id]>
                   (<["name" := n]>
                      (<["price" := VNum p]> (<["category" := c]> ∅)))]>
           (documents srv).
Proof.
  intros Hresp.
  destruct (productsCollection srv) as [h|] eqn:Hh.
  2:{ rewrite (serve_Ret env srv _ not_ready) in Hresp; [done|].
      unfold app. simpl. by rewrite Hh. }
  destruct (create_cases b)
    as [H|[(Hn & Hp & Hc & Hnum)|[(pn & Hn & Hp & Hc & Hnum & Hnan)
       |(n & c & pn & Hn & Tn & Hp & Hc & Tc & Hnum & Hnan)]]].
  - rewrite (serve_Ret env srv _ missing_fields) in Hresp; [done|].
    rewrite (app_ready _ _ _ _ _ _ Hh). by apply create_product_missing.
  - rewrite (serve_Ret env srv _ server_error) in Hresp; [done|].
    rewrite (app_ready _ _ _ _ _ _ Hh). by apply create_product_throws.
  - rewrite (serve_Ret env srv _ price_not_number) in Hresp; [done|].
    rewrite (app_ready _ _ _ _ _ _ Hh). by apply (create_product_nan _ pn).
  - exists h, n, c, pn. repeat split; [done..|].
    destruct (create_product_insert _ _ _ _ Hn Tn Hp Hc Tc Hnum Hnan)
      as (k & Hk & Hrej & Hres).
    assert (app srv (request POST ["api"; "products"] q b) = Call _ k) as Happ
      by (rewrite (app_ready _ _ _ _ _ _ Hh); exact Hk).
    rewrite (serve_Call env srv _ _ _ k Happ) in Hresp |- *.
    unfold Mongo.exec in *. destruct (Mongo.storeUp env); simpl in *.
    + destruct (documents srv !! Mongo.generatedId env) eqn:E; simpl in *.
      * by rewrite Hrej in Hresp.
      * rewrite Hres in Hresp |- *. simpl in *. by injection Hresp as _ <-.
    + by rewrite Hrej in Hresp.
Qed.

(** X10.  The id a create answers with names the product it stored: on a
    GET on that id (the ObjectId's hex string, as the JSON response carries
    it) the handler hands [res.json], with status 200, a document that has
    this [_id], the submitted name and category, [Number(price)] as price,
    and no other field (lines 104-118 and 89-95).  This is the value passed
    to [res.json]: in the JSON text a finite price stands as that number,
    and an infinite one, which the create accepts, as [null]. *)
Theorem create_then_get (env env' : Mongo.Env) (srv : Server)
    (q q' b b' : gmap string jsval) (msg : string) (id : Mongo.ObjectId) :
  (serve env srv (request POST ["api"; "products"] q b)).1.1
  = Json 201 (BCreated msg id) ->
  (id < 2 ^ 96)%N ->
  Mongo.storeUp env' = true ->
  exists (d : Mongo.Doc) p,
    serve env' (serve env srv (request POST ["api"; "products"] q b)).1.2
      (request GET ["api"; "products"; toHexString id] q' b')
    = (Json 200 (BProduct d),
       (serve env srv (request POST ["api"; "products"] q b)).1.2,
       [existT _ (Mongo.FindOne id)])
    /\ d !! "_id" = Some (VOid id)
    /\ d !! "name" = b !! "name"
    /\ d !! "category" = b !! "category"
    /\ Number (b !! "price") = Some p /\ d !! "price" = Some (VNum p)
    /\ forall key, key <> "_id" -> key <> "name" -> key <> "price" ->
         key <> "category" -> d !! key = None.
Proof.
  intros Hresp Hid Hup.
  destruct (create_accepted _ _ _ _ _ _ Hresp) as (h & n & c & p & Hh & Hn & Hc & Hp & Hdocs).
  eexists _, p. split.
  - rewrite (serve_get_by_id _ _ h _ id);
      [|by rewrite serve_handle|done|by apply newObjectId_toHexString].
    by rewrite Hdocs, lookup_insert_eq.
  - rewrite Hn, Hc. repeat split; [by simplify_map_eq..|].
    intros key H1 H2 H3 H4. by simplify_map_eq.
Qed.

Lemma create_then_get_witness :
  exists (d : Mongo.Doc) p,
    (serve (env_up 9%N)
       (serve (env_up 9%N) ready_server
          (request POST ["api"; "products"] ∅
             (<["name" := VStr "ink"]> (<["price" := VStr "3"]>
                (<["category" := VStr "office"]> ∅))))).1.2
       (request GET ["api"; "products"; "000000000000000000000009"] ∅ ∅)).1.1
    = Json 200 (BProduct d)
    /\ d !! "name" = Some (VStr "ink") /\ d !! "price" = Some (VNum p)
    /\ p = of_Z 3.
Proof.
  destruct (create_then_get (env_up 9%N) (env_up 9%N) ready_server ∅ ∅
              (<["name" := VStr "ink"]> (<["price" := VStr "3"]>
                 (<["category" := VStr "office"]> ∅))) ∅
              "Product created" 9%N)
    as (d & p & Hget & _ & Hn & _ & Hnum & Hp & _);
    [vm_compute; reflexivity|reflexivity|reflexivity|].
  exists d, p. change (toHexString 9) with "000000000000000000000009" in Hget.
  rewrite Hget. split; [done|]. split; [exact Hn|]. split; [exact Hp|].
  vm_compute in Hnum. by injection Hnum as <-.
Defined.

(** ** Deleting and updating *)

Lemma serve_delete env srv h id oid q b :
  productsCollection srv = Some h -> Mongo.storeUp env = true ->
  Mongo.newObjectId id = Some oid ->
  serve env srv (request DELETE ["api"; "products"; id] q b)
  = (match documents srv !! oid with
     | Some _ => Json 200 (BMessage "Product deleted")
     | None => not_found
     end,
     {| productsCollection := Some h; documents := delete oid (documents srv) |},
     [existT _ (Mongo.DeleteOne oid)]).
Proof.
  intros Hh Hup Ho.
  pose proof (isValid_nonempty _ (newObjectId_isValid _ _ Ho)) as Hid.
  destruct (delete_product_valid _ _ Ho) as (k & Hk & _ & Hres).
  assert (app srv (request DELETE ["api"; "products"; id] q b) = Call _ k)
    as Happ by (rewrite (app_by_id _ _ _ _ _ _ Hh Hid); exact Hk).
  destruct (documents srv !! oid) as [d|] eqn:Hd.
  - erewrite serve_one_call;
      [|exact Happ|rewrite exec_up by done; by rewrite Hd
       |exact (Hres {| Mongo.deletedCount := 1 |})].
    simpl. by rewrite Hh.
  - erewrite serve_one_call;
      [|exact Happ|rewrite exec_up by done; by rewrite Hd
       |exact (Hres {| Mongo.deletedCount := 0 |})].
    simpl. rewrite Hh. by rewrite delete_id.
Qed.

(** X11.  DELETE /api/products/:id with a valid identifier, the collection
    reachable: afterwards no document has that [_id], every other document
    is as it was, and a GET on the same id is answered 404
    [{error: "Not found"}] (lines 163-169 and 89-93). *)
Theorem delete_removes_only_target (env env' : Mongo.Env) (srv : Server)
    (h : Collection) (id : string) (oid : Mongo.ObjectId)
    (q q' b b' : gmap string jsval) :
  productsCollection srv = Some h ->
  Mongo.storeUp env = true ->
  Mongo.newObjectId id = Some oid ->
  documents (serve env srv (request DELETE ["api"; "products"; id] q b)).1.2
    !! oid = None
  /\ (forall other, other <> oid ->
        documents (serve env srv (request DELETE ["api"; "products"; id] q b)).1.2
          !! other = documents srv !! other)
  /\ (Mongo.storeUp env' = true ->
      (serve env' (serve env srv (request DELETE ["api"; "products"; id] q b)).1.2
         (request GET ["api"; "products"; id] q' b')).1.1
      = Json 404 (BError "Not found")).
Proof.
  intros Hh Hup Ho. rewrite (serve_delete _ _ _ _ _ _ _ Hh Hup Ho). simpl.
  split; [apply lookup_delete_eq|]. split.
  - intros other Hne. by apply lookup_delete_ne.
  - intros Hup'. rewrite (serve_get_by_id _ _ h _ oid) by done. simpl.
    by rewrite lookup_delete_eq.
Qed.

Lemma delete_removes_only_target_witness :
  documents
    (serve (env_up 9%N) ready_server
       (request DELETE ["api"; "products"; id1] ∅ ∅)).1.2 !! 1%N = None
  /\ documents
       (serve (env_up 9%N) ready_server
          (request DELETE ["api"; "products"; id1] ∅ ∅)).1.2 !! 2%N
     = Some lamp.
Proof.
  destruct (delete_removes_only_target (env_up 9%N) (env_up 9%N) ready_server
              shop id1 1%N ∅ ∅ ∅ ∅ eq_refl eq_refl eq_refl)
    as (Hgone & Hother & _).
  split; [exact Hgone|].
  etransitivity; [apply Hother; discriminate|vm_compute; reflexivity].
Defined.

Lemma exec_update_twice env c oid u :
  Mongo.exec (Mongo.FindOneAndUpdate oid u) env
    (Mongo.exec (Mongo.FindOneAndUpdate oid u) env c).2
  = Mongo.exec (Mongo.FindOneAndUpdate oid u) env c.
Proof.
  unfold Mongo.exec. destruct (negb (Mongo.storeUp env)); [done|].
  destruct (c !! oid) as [d|] eqn:Hd; simpl; [|by rewrite Hd].
  rewrite lookup_insert_eq, insert_insert_eq.
  assert (Mongo.apply_set u (Mongo.apply_set u d) = Mongo.apply_set u d) as ->;
    [|done].
  unfold Mongo.apply_set. by rewrite (assoc_L (∪)), (idemp_L (∪)).
Qed.

(** X12.  PUT is idempotent: serving the same PUT request again, right after
    the first time and under the same conditions, gives the same response
    and leaves the server as the first one left it ([$set] assigns, lines
    137-154). *)
Theorem put_idempotent (env : Mongo.Env) (srv : Server) (req : Request) :
  method req = PUT ->
  serve env (serve env srv req).1.2 req
  = ((serve env srv req).1.1, (serve env srv req).1.2, (serve env srv req).2).
Proof.
  intros Hm. pose proof (app_operation srv req) as Hop.
  pose proof (app_same_handle srv _ req (serve_handle env srv req)) as Hsame.
  destruct (body req) as [b|st] eqn:Hb.
  - destruct (serve_awaits_once env srv req (app_awaits_once srv req b Hb))
      as [(r & Happ & _ & E)|(X & e & k & Happ & _)].
    + by rewrite !E.
    + rewrite Happ, Hm in Hop. rewrite Happ in Hsame.
      destruct e as [| | |oid u|]; try done.
      rewrite (serve_Call env _ _ _ _ _ Hsame), (serve_Call env _ _ _ _ _ Happ).
      pose proof (exec_update_twice env (documents srv) oid u) as Htwice.
      destruct (Mongo.exec (Mongo.FindOneAndUpdate oid u) env (documents srv))
        as [r c] eqn:E1.
      assert (exists a, k r = Ret a) as [a Ha].
      { pose proof (app_awaits_once srv req b Hb) as Hw. rewrite Happ in Hw.
        destruct Hw as [Hrej Hres]. destruct r as [x|]; [|by eauto].
        destruct (Hres x) as (a & Ha & _). by eauto. }
      rewrite Ha. simpl in *. rewrite Htwice, Ha. reflexivity.
  - by rewrite !(serve_body_error _ _ _ _ Hb).
Qed.

Lemma put_idempotent_witness :
  serve (env_up 9%N)
    (serve (env_up 9%N) ready_server
       (request PUT ["api"; "products"; id1] ∅ {["price" := VStr "7"]})).1.2
    (request PUT ["api"; "products"; id1] ∅ {["price" := VStr "7"]})
  = serve (env_up 9%N) ready_server
      (request PUT ["api"; "products"; id1] ∅ {["price" := VStr "7"]}).
Proof.
  rewrite put_idempotent by reflexivity.
  by destruct (serve _ _ _) as [[r s] t].
Defined.

(** What an accepted update has stored. *)
Lemma update_accepted env srv id q b msg d' :
  (serve env srv (request PUT ["api"; "products"; id] q b)).1.1
  = Json 200 (BUpdated msg d') ->
  exists h oid,
    productsCollection srv = Some h
    /\ Mongo.newObjectId id = Some oid
    /\ documents (serve env srv (request PUT ["api"; "products"; id] q b)).1.2
         !! oid = Some d'.
Proof.
  intros Hresp.
  destruct (productsCollection srv) as [h|] eqn:Hh.
  2:{ rewrite (serve_Ret env srv _ not_ready) in Hresp; [done|].
      unfold app. simpl. by rewrite Hh. }
  destruct (String.eqb_spec id EmptyString) as [->|Hid].
  { rewrite (serve_Ret env srv _ endpoint_not_found) in Hresp; [done|].
    by rewrite (app_ready _ _ _ _ _ _ Hh). }
  destruct (Mongo.isValid id) eqn:Hv.
  2:{ rewrite (serve_Ret env srv _ invalid_id) in Hresp; [done|].
      rewrite (app_by_id _ _ _ _ _ _ Hh Hid). by apply update_product_invalid. }
  destruct (isValid_newObjectId _ Hv) as [oid Ho].
  destruct (update_cases b)
    as [(Hn & Hp & Hc)|[(pr & Hp & Hnum)|[(pr & pn & Hp & Hnum & Hnan)
       |(pn & Hsome & Hp)]]].
  - rewrite (serve_Ret env srv _ no_update_fields) in Hresp; [done|].
    rewrite (app_by_id _ _ _ _ _ _ Hh Hid). by apply update_product_empty.
  - rewrite (serve_Ret env srv _ server_error) in Hresp; [done|].
    rewrite (app_by_id _ _ _ _ _ _ Hh Hid).
    by apply (update_product_throws _ _ pr).
  - rewrite (serve_Ret env srv _ price_not_number) in Hresp; [done|].
    rewrite (app_by_id _ _ _ _ _ _ Hh Hid).
    by apply (update_product_nan _ _ pr pn).
  - exists h, oid. split; [done|]. split; [done|].
    destruct (update_of_ok (b !! "name") _ (b !! "category") pn Hp)
      as (u & Hu & _).
    destruct (update_product_valid _ _ _ _ Ho Hsome Hu) as (k & Hk & Hrej & Hres).
    assert (app srv (request PUT ["api"; "products"; id] q b) = Call _ k)
      as Happ by (rewrite (app_by_id _ _ _ _ _ _ Hh Hid); exact Hk).
    rewrite (serve_Call env srv _ _ _ k Happ) in Hresp |- *.
    unfold Mongo.exec in *. destruct (Mongo.storeUp env); simpl in *.
    + destruct (documents srv !! oid) eqn:E; simpl in *.
      * rewrite Hres in Hresp |- *. simpl in *.
        injection Hresp as _ <-. by rewrite lookup_insert_eq.
      * by rewrite Hres in Hresp.
    + by rewrite Hrej in Hresp.
Qed.

(** X13.  The product a successful PUT answers with is the stored one: a GET
    on the same id right after it is answered 200 with that very document
    (lines 146-154 and 89-95). *)
Theorem put_then_get (env env' : Mongo.Env) (srv : Server) (id : string)
    (q q' b b' : gmap string jsval) (msg : string) (d' : Mongo.Doc) :
  (serve env srv (request PUT ["api"; "products"; id] q b)).1.1
  = Json 200 (BUpdated msg d') ->
  Mongo.storeUp env' = true ->
  (serve env' (serve env srv (request PUT ["api"; "products"; id] q b)).1.2
     (request GET ["api"; "products"; id] q' b')).1.1
  = Json 200 (BProduct d').
Proof.
  intros Hresp Hup.
  destruct (update_accepted _ _ _ _ _ _ _ Hresp) as (h & oid & Hh & Ho & Hd).
  rewrite (serve_get_by_id env' _ h id oid); [|by rewrite serve_handle|done..].
  by rewrite Hd.
Qed.

Lemma put_then_get_witness :
  (serve (env_up 9%N)
     (serve (env_up 9%N) ready_server
        (request PUT ["api"; "products"; id1] ∅ {["price" := VStr "7"]})).1.2
     (request GET ["api"; "products"; id1] ∅ ∅)).1.1
  = Json 200 (BProduct (<["price" := VNum (of_Z 7)]> pen)).
Proof.
  apply (put_then_get _ _ _ _ _ _ _ _ "Product updated");
    [vm_compute; reflexivity|reflexivity].
Defined.

(** ** Listing *)

(** The response to a list request, the handle being assigned. *)
Lemma serve_list_response env srv h q b :
  productsCollection srv = Some h ->
  (serve env srv (request GET ["api"; "products"] q b)).1.1
  = match list_plan q with
    | inl r => r
    | inr (f, o) =>
        if Mongo.storeUp env
        then Json 200 (BList (length (Mongo.find f o (documents srv)))
                             (Mongo.find f o (documents srv)))
        else server_error
    end.
Proof.
  intros Hh. pose proof (list_products_plan q) as H.
  destruct (list_plan q) as [r|[f o]] eqn:Hplan.
  - rewrite (serve_Ret env srv _ r); [done|].
    by rewrite (app_ready _ _ _ _ _ _ Hh).
  - destruct H as (k & Hk & Hrej & Hres).
    assert (app srv (request GET ["api"; "products"] q b) = Call _ k) as Happ
      by (rewrite (app_ready _ _ _ _ _ _ Hh); exact Hk).
    destruct (Mongo.storeUp env) eqn:Hup.
    + erewrite serve_one_call; [reflexivity|exact Happ| |apply Hres].
      by rewrite exec_up.
    + erewrite serve_one_call; [reflexivity|exact Happ| |apply Hrej].
      by rewrite exec_down.
Qed.

Lemma list_plan_bare q :
  truthy (q !! "category") = false -> q !! "minPrice" = None ->
  truthy (q !! "sort") = false -> truthy (q !! "fields") = false ->
  list_plan q = inr ({| Mongo.category := None; Mongo.price := None |},
                     {| Mongo.sort := None; Mongo.projection := None |}).
Proof.
  intros Hc Hm Hs Hf. unfold list_plan, with_minPrice, with_category, with_sort.
  by rewrite Hc, Hm, Hs, Hf.
Qed.

Lemma find_all (c : Mongo.Coll) :
  Mongo.find {| Mongo.category := None; Mongo.price := None |}
    {| Mongo.sort := None; Mongo.projection := None |} c
  = snd <$> map_to_list c.
Proof.
  unfold Mongo.find. simpl.
  assert (forall l : list Mongo.Doc, List.filter (fun _ => true) l = l) as ->.
  { induction l as [|x l IH]; simpl; [done|by rewrite IH]. }
  by rewrite list_fmap_id.
Qed.

(** X14.  GET /api/products without any parameter (or with empty ones)
    returns every stored document, whole, and a count equal to the number
    of documents in the collection (lines 53-80). *)
Theorem list_without_parameters (env : Mongo.Env) (srv : Server)
    (h : Collection) (q b : gmap string jsval) :
  productsCollection srv = Some h ->
  Mongo.storeUp env = true ->
  truthy (q !! "category") = false -> q !! "minPrice" = None ->
  truthy (q !! "sort") = false -> truthy (q !! "fields") = false ->
  exists l,
    (serve env srv (request GET ["api"; "products"] q b)).1.1
    = Json 200 (BList (size (documents srv)) l)
    /\ forall d, d ∈ l <-> exists id, documents srv !! id = Some d.
Proof.
  intros Hh Hup Hc Hm Hs Hf. exists (snd <$> map_to_list (documents srv)).
  rewrite (serve_list_response _ _ _ _ _ Hh), (list_plan_bare _ Hc Hm Hs Hf), Hup.
  rewrite find_all, length_fmap, length_map_to_list. split; [done|].
  intros d. rewrite list_elem_of_fmap. split.
  - intros ([id d'] & -> & Hin). exists id. by apply elem_of_map_to_list.
  - intros [id Hd]. exists (id, d). split; [done|].
    by apply elem_of_map_to_list.
Qed.

Lemma list_without_parameters_witness :
  exists l,
    (serve (env_up 9%N) ready_server
       (request GET ["api"; "products"] {["sort" := VStr EmptyString]} ∅)).1.1
    = Json 200 (BList 3 l)
    /\ pen ∈ l.
Proof.
  destruct (list_without_parameters (env_up 9%N) ready_server shop
              {["sort" := VStr EmptyString]} ∅)
    as (l & Hr & Hl); [reflexivity..|].
  exists l. split; [exact Hr|]. apply Hl. exists 1%N. reflexivity.
Defined.

(** ** Filtering by category (line 58) *)

Lemma jsval_eqb_VStr v c : Mongo.jsval_eqb v (VStr c) = true <-> v = VStr c.
Proof.
  destruct v; simpl; try (split; done).
  destruct (String.eqb_spec s c) as [->|Hne]; split; try done.
  by intros [= ->].
Qed.

Lemma matches_category_VStr c (d : Mongo.Doc) :
  Mongo.matches_category (VStr c) d = true <->
  d !! "category" = Some (VStr c)
  \/ exists l, d !! "category" = Some (VArr l) /\ VStr c ∈ l.
Proof.
  unfold Mongo.matches_category.
  destruct (d !! "category") as [v|];
    [|split; [done|by intros [?|(? & ? & _)]]].
  rewrite orb_true_iff, jsval_eqb_VStr. split.
  - intros [->|H]; [by left|]. right. destruct v; try done.
    exists l. split; [done|]. apply existsb_exists in H as (x & Hx & Hx').
    apply jsval_eqb_VStr in Hx' as ->. by apply list_elem_of_In.
  - intros [[= ->]|(l & [= ->] & Hin)]; [by left|]. right.
    apply existsb_exists. exists (VStr c). split; [by apply list_elem_of_In|].
    by apply jsval_eqb_VStr.
Qed.

Lemma list_plan_category q f o :
  list_plan q = inr (f, o) ->
  Mongo.category f = (if truthy (q !! "category") then q !! "category" else None)
  /\ (q !! "minPrice" = None -> Mongo.price f = None).
Proof.
  unfold list_plan, with_minPrice, with_category.
  destruct (q !! "minPrice") as [v|]; simpl.
  - destruct (ToNumber v) as [mp|]; [|done]. destruct (isNaN mp); [done|].
    destruct (with_sort _ _); [|done..].
    destruct (truthy (q !! "fields")); [destruct (q !! "fields") as [[]|]|];
      by intros [= <- <-].
  - destruct (with_sort _ _); [|done..].
    destruct (truthy (q !! "fields")); [destruct (q !! "fields") as [[]|]|];
      by intros [= <- <-].
Qed.

(** X15.  GET /api/products with [category] a non-empty string [c] and no
    [minPrice], the rest of the query passing validation: the products
    returned are exactly (the projections of) the stored documents whose
    [category] is [c], or an array holding [c]; the match is exact, case
    included. *)
Theorem category_filter (env : Mongo.Env) (srv : Server) (h : Collection)
    (q b : gmap string jsval) (c : string) (f : Mongo.Filter) (o : Mongo.Options) :
  productsCollection srv = Some h ->
  Mongo.storeUp env = true ->
  q !! "category" = Some (VStr c) -> c <> EmptyString ->
  q !! "minPrice" = None ->
  list_plan q = inr (f, o) ->
  exists l,
    (serve env srv (request GET ["api"; "products"] q b)).1.1
    = Json 200 (BList (length l) l)
    /\ forall d, d ∈ l <->
         exists id d0,
           documents srv !! id = Some d0
           /\ d = Mongo.project (Mongo.projection o) d0
           /\ (d0 !! "category" = Some (VStr c)
               \/ exists vs, d0 !! "category" = Some (VArr vs) /\ VStr c ∈ vs).
Proof.
  intros Hh Hup Hc Hne Hm Hplan.
  exists (Mongo.find f o (documents srv)).
  rewrite (serve_list_response _ _ _ _ _ Hh), Hplan, Hup. split; [done|].
  destruct (list_plan_category _ _ _ Hplan) as [Hcat Hprice].
  rewrite Hc in Hcat. simpl in Hcat.
  destruct (String.eqb_spec c EmptyString) as [|_]; [done|]. simpl in Hcat.
  specialize (Hprice Hm).
  assert (forall d0, Mongo.matches f d0
                     = Mongo.matches_category (VStr c) d0) as Hmt.
  { intros d0. unfold Mongo.matches. rewrite Hcat, Hprice. apply andb_true_r. }
  intros d. rewrite elem_of_find.
  split; intros (id & d0 & Hd0 & H1 & H2); exists id, d0.
  - rewrite Hmt, matches_category_VStr in H1. done.
  - rewrite Hmt, matches_category_VStr. done.
Qed.

Lemma category_filter_witness :
  exists l,
    (serve (env_up 9%N) ready_server
       (request GET ["api"; "products"] {["category" := VStr "office"]} ∅)).1.1
    = Json 200 (BList (length l) l)
    /\ pen ∈ l /\ lamp ∉ l.
Proof.
  destruct (category_filter (env_up 9%N) ready_server shop
              {["category" := VStr "office"]} ∅ "office"
              {| Mongo.category := Some (VStr "office"); Mongo.price := None |}
              {| Mongo.sort := None; Mongo.projection := None |})
    as (l & Hr & Hl); [reflexivity|reflexivity|reflexivity|discriminate
                      |reflexivity|reflexivity|].
  exists l. split; [exact Hr|]. split.
  - apply Hl. exists 1%N, pen. split; [reflexivity|]. split; [reflexivity|].
    left. reflexivity.
  - intros (id & d0 & _ & Heq & Hcat)%Hl.
    change (lamp = d0) in Heq. rewrite <- Heq in Hcat.
    destruct Hcat as [Hcat|(vs & Hcat & _)]; vm_compute in Hcat; discriminate.
Defined.

(** ** Sorting (lines 66-70 and 78) *)

Lemma SFcompare_antisym (x y : number) :
  SFcompare y x = CompOpp <$> SFcompare x y.
Proof.
  destruct x as [[]|[]| |[] m e], y as [[]|[]| |[] m' e']; try reflexivity;
    cbn [SFcompare fmap option_fmap option_map];
    rewrite (Z.compare_antisym e e'); destruct (e ?= e'); simpl;
    try reflexivity; f_equal.
  - rewrite CompOpp_involutive. apply Pos.compare_cont_antisym.
  - by rewrite Pos.compare_cont_antisym.
Qed.

Lemma SFltb_asym (x y : number) : SFltb x y = true -> SFltb y x = false.
Proof.
  unfold SFltb. rewrite (SFcompare_antisym x y).
  by destruct (SFcompare x y) as [[]|].
Qed.

Lemma SFleb_total (x y : number) :
  isNaN x = false -> isNaN y = false -> SFltb y x = false -> geb y x = true.
Proof.
  unfold geb, SFltb, SFleb. rewrite (SFcompare_antisym x y).
  destruct (SFcompare x y) as [[]|] eqn:E; try done.
  by destruct x as [| | |], y as [| | |].
Qed.

Lemma string_ltb_asym (a b : string) : String.ltb a b = true -> String.ltb b a = false.
Proof.
  unfold String.ltb. rewrite (String.compare_antisym a b).
  by destruct (String.compare b a).
Qed.

Lemma price_ltb_asym a b : Mongo.price_ltb a b = true -> Mongo.price_ltb b a = false.
Proof.
  unfold Mongo.price_ltb.
  destruct (N.ltb_spec (Mongo.type_rank a) (Mongo.type_rank b)) as [H|H];
    destruct (N.ltb_spec (Mongo.type_rank b) (Mongo.type_rank a)) as [H'|H'];
    try done; try lia.
  destruct a as [[|?|x|x|?|?|?]|], b as [[|?|y|y|?|?|?]|]; try done.
  - destruct (isNaN y) eqn:E0; [done|]. destruct (isNaN x) eqn:E; [done|].
    apply SFltb_asym.
  - apply string_ltb_asym.
Qed.

Lemma comes_before_asym s a b :
  Mongo.comes_before s a b = true -> in_order s a b.
Proof.
  unfold in_order, Mongo.comes_before. destruct s as [dir].
  destruct (0 <=? dir); apply price_ltb_asym.
Qed.

Lemma insert_sorted_Sorted s d l :
  Sorted (in_order s) l -> Sorted (in_order s) (Mongo.insert_sorted s d l).
Proof.
  induction 1 as [|x l Hl IH Hhd]; simpl; [by repeat constructor|].
  destruct (Mongo.comes_before s d x) eqn:E.
  - constructor; [by constructor|]. constructor. by apply comes_before_asym.
  - constructor; [done|].
    destruct Hhd as [|y l Hxy]; simpl.
    + by constructor.
    + destruct (Mongo.comes_before s d y); by constructor.
Qed.

Lemma sort_docs_Sorted s l : Sorted (in_order s) (Mongo.sort_docs (Some s) l).
Proof.
  induction l as [|x l IH]; simpl; [constructor|].
  by apply insert_sorted_Sorted.
Qed.

Lemma Sorted_adjacent {A} (R : A -> A -> Prop) (l : list A) i a b :
  Sorted R l -> l !! i = Some a -> l !! S i = Some b -> R a b.
Proof.
  intros Hs. revert i. induction Hs as [|x l Hl IH Hhd]; intros i; [done|].
  destruct i as [|i]; simpl.
  - intros [= ->] Hb. destruct Hhd as [|y l Hxy]; [done|].
    by injection Hb as ->.
  - apply IH.
Qed.

Lemma project_lookup_Some p (d : Mongo.Doc) k v :
  Mongo.project p d !! k = Some v -> d !! k = Some v.
Proof.
  unfold Mongo.project. destruct p as [p|]; [|done].
  destruct (bool_decide (p = ∅)); [done|].
  by intros [H _]%map_lookup_filter_Some.
Qed.

Lemma list_plan_sort_string q f o s :
  list_plan q = inr (f, o) -> q !! "sort" = Some (VStr s) -> s <> EmptyString ->
  Mongo.sort o = Some (Mongo.ByPrice (if String.eqb s "price" then 1 else -1)).
Proof.
  unfold list_plan. intros H Hs Hne.
  destruct (with_minPrice _ _); [|done..].
  rewrite Hs in H. unfold with_sort in H. simpl in H.
  destruct (String.eqb_spec s EmptyString) as [|_]; [done|]. simpl in H.
  destruct (String.eqb s "price"); simpl in H;
    [|destruct (String.eqb s "-price"); simpl in H; [|done]];
    (revert H; destruct (truthy (q !! "fields"));
     [destruct (q !! "fields") as [[]|]|]; by intros [= <- <-]).
Qed.

(** X16.  GET /api/products with [sort] a non-empty string, the query
    passing validation: in the list returned, of two neighbours whose prices
    are Numbers (not NaN) the second costs at least as much as the first for
    [sort=price], and at most as much for [sort=-price]; whatever [fields]
    selects. *)
Theorem sorted_by_price (env : Mongo.Env) (srv : Server) (h : Collection)
    (q b : gmap string jsval) (s : string) (f : Mongo.Filter) (o : Mongo.Options) :
  productsCollection srv = Some h ->
  Mongo.storeUp env = true ->
  list_plan q = inr (f, o) ->
  q !! "sort" = Some (VStr s) -> s <> EmptyString ->
  exists l,
    (serve env srv (request GET ["api"; "products"] q b)).1.1
    = Json 200 (BList (length l) l)
    /\ forall (i : nat) (d1 d2 : Mongo.Doc) (x y : number),
         l !! i = Some d1 -> l !! S i = Some d2 ->
         d1 !! "price" = Some (VNum x) -> d2 !! "price" = Some (VNum y) ->
         isNaN x = false -> isNaN y = false ->
         if String.eqb s "price" then geb y x = true else geb x y = true.
Proof.
  intros Hh Hup Hplan Hs Hne. exists (Mongo.find f o (documents srv)).
  rewrite (serve_list_response _ _ _ _ _ Hh), Hplan, Hup. split; [done|].
  intros i d1 d2 x y H1 H2 Hx Hy Hnx Hny.
  unfold Mongo.find in H1, H2. rewrite (list_plan_sort_string _ _ _ _ Hplan Hs Hne) in H1, H2.
  apply list_lookup_fmap_Some in H1 as (a1 & -> & H1).
  apply list_lookup_fmap_Some in H2 as (a2 & -> & H2).
  apply project_lookup_Some in Hx, Hy.
  pose proof (Sorted_adjacent _ _ _ _ _ (sort_docs_Sorted _ _) H1 H2) as Hord.
  unfold in_order, Mongo.comes_before in Hord. rewrite Hx, Hy in Hord.
  destruct (String.eqb s "price"); simpl in Hord;
    unfold Mongo.price_ltb in Hord; simpl in Hord.
  - rewrite Hnx, Hny in Hord. by apply SFleb_total.
  - rewrite Hnx, Hny in Hord. by apply SFleb_total.
Qed.

Lemma sorted_by_price_witness :
  exists l,
    (serve (env_up 9%N) ready_server
       (request GET ["api"; "products"] {["sort" := VStr "-price"]} ∅)).1.1
    = Json 200 (BList (length l) l)
    /\ forall (i : nat) (d1 d2 : Mongo.Doc) (x y : number),
         l !! i = Some d1 -> l !! S i = Some d2 ->
         d1 !! "price" = Some (VNum x) -> d2 !! "price" = Some (VNum y) ->
         isNaN x = false -> isNaN y = false -> geb x y = true.
Proof.
  exact (sorted_by_price (env_up 9%N) ready_server shop
           {["sort" := VStr "-price"]} ∅ "-price"
           {| Mongo.category := None; Mongo.price := None |}
           {| Mongo.sort := Some (Mongo.ByPrice (-1)); Mongo.projection := None |}
           eq_refl eq_refl eq_refl eq_refl ltac:(discriminate)).
Defined.

(** ** What [count] depends on *)

Lemma list_plan_filter q f o :
  list_plan q = inr (f, o) ->
  with_minPrice (q !! "minPrice") (with_category (q !! "category")) = Continue f.
Proof.
  unfold list_plan. destruct (with_minPrice _ _) as [f'| |]; [|done..].
  destruct (with_sort _ _); [|done..].
  destruct (truthy (q !! "fields")); [destruct (q !! "fields") as [[]|]|];
    by intros [= <- <-].
Qed.

Lemma length_find f o (c : Mongo.Coll) :
  length (Mongo.find f o c)
  = length (List.filter (Mongo.matches f) (snd <$> map_to_list c)).
Proof.
  unfold Mongo.find. rewrite length_fmap.
  apply Permutation_length, sort_docs_perm.
Qed.

(** X17.  The [count] of a list response depends on [category] and
    [minPrice] only: two queries that agree on these two and pass
    validation get the same count from the same collection, whatever their
    [sort] and [fields]. *)
Theorem count_ignores_sort_and_fields (env : Mongo.Env) (srv : Server)
    (h : Collection) (q1 q2 b1 b2 : gmap string jsval)
    (f1 f2 : Mongo.Filter) (o1 o2 : Mongo.Options) :
  productsCollection srv = Some h ->
  Mongo.storeUp env = true ->
  list_plan q1 = inr (f1, o1) -> list_plan q2 = inr (f2, o2) ->
  q1 !! "category" = q2 !! "category" ->
  q1 !! "minPrice" = q2 !! "minPrice" ->
  exists n l1 l2,
    (serve env srv (request GET ["api"; "products"] q1 b1)).1.1
    = Json 200 (BList n l1)
    /\ (serve env srv (request GET ["api"; "products"] q2 b2)).1.1
       = Json 200 (BList n l2)
    /\ length l1 = n /\ length l2 = n.
Proof.
  intros Hh Hup H1 H2 Hc Hm.
  assert (f1 = f2) as <-.
  { apply list_plan_filter in H1, H2. rewrite Hc, Hm in H1.
    rewrite H1 in H2. by injection H2. }
  exists (length (Mongo.find f1 o1 (documents srv))),
         (Mongo.find f1 o1 (documents srv)), (Mongo.find f1 o2 (documents srv)).
  rewrite !(serve_list_response _ _ _ _ _ Hh), H1, H2, Hup.
  by rewrite !length_find.
Qed.

Lemma count_ignores_sort_and_fields_witness :
  exists n l1 l2,
    (serve (env_up 9%N) ready_server
       (request GET ["api"; "products"] {["category" := VStr "office"]} ∅)).1.1
    = Json 200 (BList n l1)
    /\ (serve (env_up 9%N) ready_server
          (request GET ["api"; "products"]
             (<["sort" := VStr "-price"]>
                (<["fields" := VStr "name"]> {["category" := VStr "office"]}))
             ∅)).1.1
       = Json 200 (BList n l2)
    /\ length l1 = n /\ length l2 = n.
Proof.
  eapply (count_ignores_sort_and_fields (env_up 9%N) ready_server shop);
    [reflexivity|reflexivity|vm_compute; reflexivity|vm_compute; reflexivity
    |vm_compute; reflexivity|vm_compute; reflexivity].
Defined.

(** ** The [fields] parameter (lines 72-76) *)

Lemma serve_list_outcome env srv h q b :
  productsCollection srv = Some h ->
  serve env srv (request GET ["api"; "products"] q b)
  = match list_plan q with
    | inl r => (r, srv, [])
    | inr (f, o) =>
        (if Mongo.storeUp env
         then Json 200 (BList (length (Mongo.find f o (documents srv)))
                              (Mongo.find f o (documents srv)))
         else server_error,
         srv, [existT _ (Mongo.Find f o)])
    end.
Proof.
  intros Hh. pose proof (list_products_plan q) as H.
  destruct (list_plan q) as [r|[f o]] eqn:Hplan.
  - apply serve_Ret. by rewrite (app_ready _ _ _ _ _ _ Hh).
  - destruct H as (k & Hk & Hrej & Hres).
    assert (app srv (request GET ["api"; "products"] q b) = Call _ k) as Happ
      by (rewrite (app_ready _ _ _ _ _ _ Hh); exact Hk).
    destruct (Mongo.storeUp env) eqn:Hup.
    + erewrite serve_one_call; [|exact Happ|by rewrite exec_up|apply Hres].
      by rewrite server_eta.
    + erewrite serve_one_call; [|exact Happ|by rewrite exec_down|apply Hrej].
      by rewrite server_eta.
Qed.

Lemma elem_of_names s k :
  k ∈ names s <-> k ∈ trim <$> split "," s /\ k <> EmptyString.
Proof.
  unfold names. rewrite elem_of_list_to_set, list_elem_of_In, filter_In.
  rewrite <- list_elem_of_In. simpl.
  destruct (String.eqb_spec k EmptyString); simpl; split; intros [? ?]; done.
Qed.

Lemma projection_of_names s1 s2 :
  names s1 = names s2 -> projection_of s1 = projection_of s2.
Proof.
  intros H. apply map_eq. intros k. rewrite !projection_of_keys.
  assert (k ∈ names s1 <-> k ∈ names s2) as Hk by (by rewrite H).
  rewrite !elem_of_names in Hk.
  destruct (decide _) as [H1|H1], (decide _) as [H2|H2]; try done; tauto.
Qed.

Lemma projection_of_no_names s :
  Forall (fun k => k = EmptyString \/ k = "__proto__") (trim <$> split "," s) ->
  projection_of s = ∅.
Proof.
  intros H. apply map_eq. intros k. rewrite projection_of_keys, lookup_empty.
  destruct (decide _) as [(Hin & H1 & H2)|]; [|done].
  rewrite Forall_forall in H. by destruct (H k Hin).
Qed.

(** X18.  A [fields] parameter that names nothing, such as [fields=,] (only
    empty segments once trimmed, or [__proto__]), is answered like a request
    without [fields]: whole documents. *)
Theorem fields_without_names (env : Mongo.Env) (srv : Server)
    (q b : gmap string jsval) (s : string) :
  q !! "fields" = Some (VStr s) ->
  Forall (fun k => k = EmptyString \/ k = "__proto__") (trim <$> split "," s) ->
  (serve env srv (request GET ["api"; "products"] q b)).1.1
  = (serve env srv (request GET ["api"; "products"] (delete "fields" q) b)).1.1.
Proof.
  intros Hf Hs. apply projection_of_no_names in Hs.
  destruct (productsCollection srv) as [h|] eqn:Hh.
  2:{ rewrite !(serve_Ret env srv _ not_ready); [done|..];
        unfold app; simpl; by rewrite Hh. }
  rewrite !(serve_list_outcome _ _ _ _ _ Hh). unfold list_plan.
  rewrite !lookup_delete_ne, lookup_delete_eq, Hf by done.
  destruct (with_minPrice _ _) as [f|r|]; [|done..].
  assert (forall so,
            Mongo.find f {| Mongo.sort := so;
                            Mongo.projection := Some (projection_of s) |}
              (documents srv)
            = Mongo.find f {| Mongo.sort := so; Mongo.projection := None |}
                (documents srv)) as Hfind.
  { intros so. unfold Mongo.find. simpl.
    apply list_fmap_ext. intros i d _. by rewrite Hs. }
  unfold with_sort. simpl (truthy None).
  destruct (truthy (q !! "sort")); [|destruct (truthy (Some (VStr s)))];
    [destruct (strict_eq_str (q !! "sort") "price");
       [|destruct (strict_eq_str (q !! "sort") "-price"); [|done]];
       destruct (truthy (Some (VStr s)))|..];
    cbn [fst snd Mongo.sort Mongo.projection]; try done; by rewrite Hfind.
Qed.

Lemma fields_without_names_witness :
  (serve (env_up 9%N) ready_server
     (request GET ["api"; "products"] {["fields" := VStr " ,__proto__,"]} ∅)).1.1
  = (serve (env_up 9%N) ready_server
       (request GET ["api"; "products"]
          (delete "fields" {["fields" := VStr " ,__proto__,"]}) ∅)).1.1.
Proof.
  apply (fields_without_names _ _ _ _ " ,__proto__,"); [reflexivity|].
  vm_compute. repeat (constructor; [by (left + right)|]). constructor.
Defined.

Lemma list_plan_fields_names q s1 s2 :
  s1 <> EmptyString -> s2 <> EmptyString -> names s1 = names s2 ->
  list_plan (<["fields" := VStr s1]> q) = list_plan (<["fields" := VStr s2]> q).
Proof.
  intros H1 H2 H. unfold list_plan.
  rewrite !(lookup_insert_ne _ "fields" "minPrice"),
    !(lookup_insert_ne _ "fields" "category"),
    !(lookup_insert_ne _ "fields" "sort"), !lookup_insert_eq by done.
  cbn [truthy].
  destruct (String.eqb_spec s1 EmptyString) as [|_]; [done|].
  destruct (String.eqb_spec s2 EmptyString) as [|_]; [done|]. cbn [negb].
  by rewrite (projection_of_names _ _ H).
Qed.

(** X19.  What [fields] selects depends on the set of names it lists, not on
    their order, repetition or the white space around them: two non-empty
    [fields] values listing the same names give the same projection, hence
    the same collection operation and the same response. *)
Theorem fields_names_only (env : Mongo.Env) (srv : Server)
    (q b : gmap string jsval) (s1 s2 : string) :
  s1 <> EmptyString -> s2 <> EmptyString -> names s1 = names s2 ->
  projection_of s1 = projection_of s2
  /\ serve env srv (request GET ["api"; "products"] (<["fields" := VStr s1]> q) b)
     = serve env srv (request GET ["api"; "products"] (<["fields" := VStr s2]> q) b).
Proof.
  intros H1 H2 H. split; [by apply projection_of_names|].
  destruct (productsCollection srv) as [h|] eqn:Hh.
  - by rewrite !(serve_list_outcome _ _ _ _ _ Hh), (list_plan_fields_names _ _ _ H1 H2 H).
  - rewrite !(serve_Ret env srv _ not_ready); [done|..];
      unfold app; simpl; by rewrite Hh.
Qed.

Lemma fields_names_only_witness :
  projection_of "name,price" = projection_of " price ,name,,name"
  /\ serve (env_up 9%N) ready_server
       (request GET ["api"; "products"] (<["fields" := VStr "name,price"]> ∅) ∅)
     = serve (env_up 9%N) ready_server
         (request GET ["api"; "products"]
            (<["fields" := VStr " price ,name,,name"]> ∅) ∅).
Proof.
  apply (fields_names_only (env_up 9%N) ready_server ∅ ∅
           "name,price" " price ,name,,name");
    [discriminate|discriminate|vm_compute; reflexivity].
Defined.

(** ** Prices that hold no digit (lines 60-63 and 106-113) *)

Lemma drop_spaces_blank l : forallb is_space l = true -> drop_spaces l = [].
Proof.
  induction l as [|c l IH]; simpl; [done|].
  destruct (is_space c); [exact IH|done].
Qed.

Lemma Number_blank v : blank v = true -> Number (Some v) = Some pos_zero.
Proof.
  destruct v as [|[]|x|s|[|y l]|o|i]; try done. intros H.
  unfold Number, ToNumber. cbn [printable to_number].
  unfold StringToNumber, trim_list.
  by rewrite (drop_spaces_blank _ H).
Qed.

(** X20.  POST /api/products tests the price against [undefined] only: a
    price that is [null], [false], an empty array or a string of white space
    (the empty string included) passes, [Number] turns it into 0, and the
    product is stored with price 0 and answered 201. *)
Theorem create_blank_price (env : Mongo.Env) (srv : Server) (h : Collection)
    (q b : gmap string jsval) (n c pr : jsval) :
  productsCollection srv = Some h ->
  Mongo.storeUp env = true ->
  documents srv !! Mongo.generatedId env = None ->
  b !! "name" = Some n -> truthy (Some n) = true ->
  b !! "category" = Some c -> truthy (Some c) = true ->
  b !! "price" = Some pr -> blank pr = true ->
  serve env srv (request POST ["api"; "products"] q b)
  = (Json 201 (BCreated "Product created" (Mongo.generatedId env)),
     {| productsCollection := productsCollection srv;
        documents :=
          <[Mongo.generatedId env :=
              <["_id" := VOid (Mongo.generatedId env)]>
                (<["name" := n]>
                   (<["price" := VNum pos_zero]> (<["category" := c]> ∅)))]>
            (documents srv) |},
     [existT _ (Mongo.InsertOne
                  (<["name" := n]>
                     (<["price" := VNum pos_zero]> (<["category" := c]> ∅))))]).
Proof.
  intros Hh Hup Hfree Hn Tn Hc Tc Hp Hb.
  destruct (create_product_insert b n c pos_zero) as (k & Hk & _ & Hres);
    [done|done|by rewrite Hp|done|done|by rewrite Hp; apply Number_blank|done|].
  assert (app srv (request POST ["api"; "products"] q b) = Call _ k) as Happ
    by (by rewrite (app_ready _ _ _ _ _ _ Hh)).
  apply (serve_one_call env srv _ _ _ k
           (Mongo.Resolved {| Mongo.insertedId := Mongo.generatedId env |})
           _ _ Happ); [|apply Hres].
  by rewrite exec_up, Hfree.
Qed.

Lemma create_blank_price_witness :
  (serve (env_up 9%N) ready_server
     (request POST ["api"; "products"] ∅
        (<["name" := VStr "gift"]>
           (<["price" := VStr " "]> {["category" := VStr "misc"]})))).1.1
  = Json 201 (BCreated "Product created" 9%N).
Proof.
  rewrite (create_blank_price (env_up 9%N) ready_server shop ∅ _
             (VStr "gift") (VStr "misc") (VStr " "));
    [reflexivity|reflexivity|reflexivity|vm_compute; reflexivity
    |vm_compute; reflexivity|reflexivity|vm_compute; reflexivity|reflexivity
    |vm_compute; reflexivity|reflexivity].
Defined.

Lemma list_plan_same_minPrice q v w :
  q !! "minPrice" = Some v -> Number (Some v) = Number (Some w) ->
  list_plan q = list_plan (<["minPrice" := w]> q).
Proof.
  intros Hv Hn. unfold list_plan.
  rewrite !(lookup_insert_ne _ "minPrice" "fields"),
    !(lookup_insert_ne _ "minPrice" "category"),
    !(lookup_insert_ne _ "minPrice" "sort"), lookup_insert_eq, Hv by done.
  unfold with_minPrice. cbn [is_undefined negb]. by rewrite Hn.
Qed.

(** X21.  GET /api/products tests [minPrice] against [undefined] only: a
    [minPrice] that is present but blank, as in [?minPrice=], is not
    ignored; it is read as 0 and the request is served exactly like
    [minPrice=0], which leaves out the products whose price is negative or
    no Number. *)
Theorem blank_minPrice_is_zero (env : Mongo.Env) (srv : Server)
    (q b : gmap string jsval) (v : jsval) :
  q !! "minPrice" = Some v -> blank v = true ->
  serve env srv (request GET ["api"; "products"] q b)
  = serve env srv (request GET ["api"; "products"] (<["minPrice" := VStr "0"]> q) b).
Proof.
  intros Hv Hb.
  destruct (productsCollection srv) as [h|] eqn:Hh.
  - rewrite !(serve_list_outcome _ _ _ _ _ Hh).
    rewrite (list_plan_same_minPrice q v (VStr "0") Hv); [done|].
    by rewrite (Number_blank _ Hb).
  - rewrite !(serve_Ret env srv _ not_ready); [done|..];
      unfold app; simpl; by rewrite Hh.
Qed.

Lemma blank_minPrice_is_zero_witness :
  serve (env_up 9%N) ready_server
    (request GET ["api"; "products"] {["minPrice" := VStr EmptyString]} ∅)
  = serve (env_up 9%N) ready_server
      (request GET ["api"; "products"]
         (<["minPrice" := VStr "0"]> {["minPrice" := VStr EmptyString]}) ∅).
Proof.
  apply (blank_minPrice_is_zero (env_up 9%N) ready_server
           {["minPrice" := VStr EmptyString]} ∅ (VStr EmptyString));
    reflexivity.
Defined.
